(** * AlgoEngine: the dispatch core of vnpy's algorithmic trading app

    A shallow embedding of [vnpy/trader/app/algoTrading/algoEngine.py]
    (class [AlgoEngine] and [AlgoRpcServer]) and the properties of its
    registry, dispatcher, order gateway, subscription manager, setting
    store and control server.

    Conventions of the embedding.
    - The engine object ([self]) is the record [AlgoEngine]; a method is a
      computation in the monad [M], which threads the [World] (the engine,
      the setting file and the trace of calls made to the collaborators)
      and may raise a Python exception.  A raised exception keeps the world
      as it was at the raise: Python does not roll mutations back.
    - Collaborators (main engine, event engine, algorithm templates and
      instances, RPC server, loggers) are outside the file: a call to one
      of them is recorded in the trace as an [Effect], and what it returns
      is a parameter ([MainEngine], [AlgoClass]).  What the body of a
      template's constructor or of an instance's hook ([stop],
      [updateTick], ...) does in turn is not part of the model.
    - The interpreter is Python 3: [open(..., encoding='UTF-8')] in
      [loadAlgoSettingFromFile] exists only there.  Hence [dict.keys()] and
      [dict.values()] are live views, and dicts keep insertion order. *)

From stdpp Require Import base decidable option numbers list strings countable gmap.

#[local] Open Scope string_scope.
#[local] Open Scope list_scope.

(** ** Python values *)

(** The scalars a setting holds: strings and integers.  (Floats, booleans
    and nested containers are outside the model.)  Python compares a [str]
    and an [int] as different, as the constructors do. *)
Inductive value : Type :=
| VStr (s : string)
| VInt (z : Z).

#[global] Instance value_eq_dec : EqDecision value.
Proof. solve_decision. Defined.

#[global] Instance value_countable : Countable value.
Proof.
  refine (inj_countable'
    (fun v => match v with VStr s => inl s | VInt z => inr z end)
    (fun x => match x with inl s => VStr s | inr z => VInt z end) _).
  intros []; reflexivity.
Defined.

(** ** Insertion-ordered dictionaries

    A Python 3 [dict] that the code iterates over ([keys()], [values()]):
    an association list in insertion order, its keys pairwise distinct
    ([dict_wf]). *)
Section PyDict.
Context {K V : Type} `{EqDecision K}.

Definition pydict : Type := list (K * V).

Definition dict_keys (d : pydict) : list K := d.*1.
Definition dict_values (d : pydict) : list V := d.*2.

(** [d.get(k, None)]; also the lookup of [d[k]] and the test [k in d]. *)
Fixpoint dict_get (k : K) (d : pydict) : option V :=
  match d with
  | [] => None
  | (k', v) :: r => if decide (k = k') then Some v else dict_get k r
  end.

(** [d[k] = v]: a key already there keeps its place, a new one goes last. *)
Fixpoint dict_set (k : K) (v : V) (d : pydict) : pydict :=
  match d with
  | [] => [(k, v)]
  | (k', v') :: r =>
      if decide (k = k') then (k', v) :: r else (k', v') :: dict_set k v r
  end.

(** [del d[k]] on a key that is there. *)
Fixpoint dict_del (k : K) (d : pydict) : pydict :=
  match d with
  | [] => []
  | (k', v') :: r =>
      if decide (k = k') then r else (k', v') :: dict_del k r
  end.

Definition dict_wf (d : pydict) : Prop := NoDup (dict_keys d).

End PyDict.

Arguments pydict : clear implicits.

(** A setting (and any JSON object): field name to value. *)
Abbreviation Setting := (pydict string value).

(** ** Data objects of the trading platform (the fields the engine reads) *)

(** An algorithm instance: a Python object, compared and hashed by identity
    ([algoId]), with its readable [algoName]. *)
Record Algo : Type := mkAlgo { algoId : nat; algoName : string }.

#[global] Instance Algo_eq_dec : EqDecision Algo.
Proof. solve_decision. Defined.

#[global] Instance Algo_countable : Countable Algo.
Proof.
  refine (inj_countable' (fun a => (algoId a, algoName a))
                         (fun p => mkAlgo p.1 p.2) _).
  intros []; reflexivity.
Defined.

Record VtContractData : Type := mkContract
  { c_symbol : string; c_exchange : string; c_gatewayName : string }.

#[global] Instance VtContractData_eq_dec : EqDecision VtContractData.
Proof. solve_decision. Defined.

Record VtTickData : Type := mkTick { t_vtSymbol : string; t_lastPrice : Z }.

#[global] Instance VtTickData_eq_dec : EqDecision VtTickData.
Proof. solve_decision. Defined.

Record VtOrderData : Type := mkOrder
  { o_vtOrderID : string; o_symbol : string; o_exchange : string;
    o_orderID : string; o_frontID : Z; o_sessionID : Z;
    o_gatewayName : string }.

#[global] Instance VtOrderData_eq_dec : EqDecision VtOrderData.
Proof. solve_decision. Defined.

Record VtTradeData : Type := mkTrade { tr_vtOrderID : string; tr_volume : Z }.

#[global] Instance VtTradeData_eq_dec : EqDecision VtTradeData.
Proof. solve_decision. Defined.

Record VtSubscribeReq : Type := mkSubscribeReq
  { sr_symbol : string; sr_exchange : string }.

#[global] Instance VtSubscribeReq_eq_dec : EqDecision VtSubscribeReq.
Proof. solve_decision. Defined.

Record VtOrderReq : Type := mkOrderReq
  { or_vtSymbol : string; or_symbol : string; or_exchange : string;
    or_direction : string; or_offset : string; or_price : Z;
    or_volume : Z; or_priceType : string }.

#[global] Instance VtOrderReq_eq_dec : EqDecision VtOrderReq.
Proof. solve_decision. Defined.

Record VtCancelOrderReq : Type := mkCancelReq
  { cr_symbol : string; cr_exchange : string; cr_orderID : string;
    cr_frontID : Z; cr_sessionID : Z }.

#[global] Instance VtCancelOrderReq_eq_dec : EqDecision VtCancelOrderReq.
Proof. solve_decision. Defined.

(** ** Exceptions *)
Inductive PyExc : Type :=
| KeyError (key : value)
| RuntimeError (msg : string)
| AttributeError (msg : string)
| IOError (msg : string)
| OtherError (msg : string).

#[global] Instance PyExc_eq_dec : EqDecision PyExc.
Proof. solve_decision. Defined.

(** ** Log records and events *)

(** The text of a log line.  String formatting is kept symbolic:
    [LogFmt t args] stands for [t % args], and [LogExc t ex] for
    [t.format(str(ex), traceback.format_exc())]. *)
Inductive LogContent : Type :=
| LogText (s : string)
| LogFmt (template : string) (args : list value)
| LogExc (template : string) (ex : PyExc).

#[global] Instance LogContent_eq_dec : EqDecision LogContent.
Proof. solve_decision. Defined.

Record VtLogData : Type := mkLog
  { logContent : LogContent; gatewayName : option string }.

#[global] Instance VtLogData_eq_dec : EqDecision VtLogData.
Proof. solve_decision. Defined.

Definition EVENT_ALGO_LOG : string := "eAlgoLog".
Definition EVENT_ALGO_PARAM : string := "eAlgoParam".
Definition EVENT_ALGO_VAR : string := "eAlgoVar".
Definition EVENT_ALGO_SETTING : string := "eAlgoSetting".

Definition ALGOTRADING_DB_NAME : string := "VnTrader_AlgoTrading_Db".
Definition SETTING_COLLECTION_NAME : string := "AlgoSetting".
Definition HISTORY_COLLECTION_NAME : string := "AlgoHistory".

Inductive EventData : Type :=
| DataLog (log : VtLogData)
| DataDict (d : Setting).

#[global] Instance EventData_eq_dec : EqDecision EventData.
Proof. solve_decision. Defined.

(** [Event(type_)] with [event.dict_['data'] = data]. *)
Record Event : Type := mkEvent { type_ : string; data : EventData }.

#[global] Instance Event_eq_dec : EqDecision Event.
Proof. solve_decision. Defined.

(** The document of an algorithm in the history collection:
    [{'algoName': ..., 'var': ..., 'param': ...}], the last two once set. *)
Record History : Type := mkHistory
  { h_algoName : string; h_var : option Setting; h_param : option Setting }.

#[global] Instance History_eq_dec : EqDecision History.
Proof. solve_decision. Defined.

Inductive DbDoc : Type :=
| DocSetting (s : Setting)
| DocHistory (h : History).

#[global] Instance DbDoc_eq_dec : EqDecision DbDoc.
Proof. solve_decision. Defined.

(** ** Calls to the collaborators, in the order they are made *)
Inductive Effect : Type :=
| EventPut (e : Event)
| AlgoNew (templateName : value) (setting : Setting)
| AlgoStop (a : Algo)
| AlgoUpdateTick (a : Algo) (tick : VtTickData)
| AlgoUpdateOrder (a : Algo) (order : VtOrderData)
| AlgoUpdateTrade (a : Algo) (trade : VtTradeData)
| AlgoUpdateTimer (a : Algo)
| MainSubscribe (req : VtSubscribeReq) (gw : string)
| MainSendOrder (req : VtOrderReq) (gw : string)
| MainCancelOrder (req : VtCancelOrderReq) (gw : string)
| MainWriteError (content : LogContent)
| MainDbUpdate (db coll : string) (d : DbDoc) (flt : Setting) (upsert : bool)
| MainDbDelete (db coll : string) (flt : Setting)
| RpcNew (repPort pubPort : value)
| RpcStart
| RpcStop
| RpcPublish (topic : string) (e : Event)
| LoggerCreate (name : string)
| LoggerError (name : string) (content : LogContent).

#[global] Instance Effect_eq_dec : EqDecision Effect.
Proof. solve_decision. Defined.

(** ** The engine and its world *)

(** [AlgoRpcServer(engine, repPort, pubPort)]: the two addresses are
    ['tcp://*:%s' % port]; the constructor registers [addAlgo], [stopAlgo]
    and [stopAll]. *)
Record AlgoRpcServer : Type := mkRpcServer
  { rpc_repPort : value; rpc_pubPort : value }.

(** The attributes of [self] that the methods read and write. *)
Record AlgoEngine : Type := mkEngine
  { rpcServer : option AlgoRpcServer;
    use_mongodb : bool;
    algoDict : pydict string Algo;            (* algoName:algo *)
    orderAlgoDict : gmap string Algo;         (* vtOrderID:algo *)
    symbolAlgoDict : gmap string (gset Algo); (* vtSymbol:algo set *)
    settingDict : pydict value Setting;       (* settingName:setting *)
    historyDict : gmap string History;        (* algoName:dict *)
    strategy_loggers : list string }.

(** [settingFile] is the content of [Algo_setting.json], a JSON array of
    objects, or [None] when there is no such file; [fs_writable] tells
    whether opening it for writing succeeds. *)
Record World : Type := mkWorld
  { engine : AlgoEngine;
    settingFile : option (list Setting);
    fs_writable : bool;
    trace : list Effect }.

Definition with_engine (f : AlgoEngine → AlgoEngine) (w : World) : World :=
  mkWorld (f (engine w)) (settingFile w) (fs_writable w) (trace w).

Definition with_trace (f : list Effect → list Effect) (w : World) : World :=
  mkWorld (engine w) (settingFile w) (fs_writable w) (f (trace w)).

Definition with_settingFile (c : option (list Setting)) (w : World) : World :=
  mkWorld (engine w) c (fs_writable w) (trace w).

Definition set_rpcServer (r : option AlgoRpcServer) (e : AlgoEngine) :=
  mkEngine r (use_mongodb e) (algoDict e) (orderAlgoDict e)
           (symbolAlgoDict e) (settingDict e) (historyDict e)
           (strategy_loggers e).

Definition set_algoDict (d : pydict string Algo) (e : AlgoEngine) :=
  mkEngine (rpcServer e) (use_mongodb e) d (orderAlgoDict e)
           (symbolAlgoDict e) (settingDict e) (historyDict e)
           (strategy_loggers e).

Definition set_orderAlgoDict (d : gmap string Algo) (e : AlgoEngine) :=
  mkEngine (rpcServer e) (use_mongodb e) (algoDict e) d
           (symbolAlgoDict e) (settingDict e) (historyDict e)
           (strategy_loggers e).

Definition set_symbolAlgoDict (d : gmap string (gset Algo)) (e : AlgoEngine) :=
  mkEngine (rpcServer e) (use_mongodb e) (algoDict e) (orderAlgoDict e)
           d (settingDict e) (historyDict e) (strategy_loggers e).

Definition set_settingDict (d : pydict value Setting) (e : AlgoEngine) :=
  mkEngine (rpcServer e) (use_mongodb e) (algoDict e) (orderAlgoDict e)
           (symbolAlgoDict e) d (historyDict e) (strategy_loggers e).

Definition set_historyDict (d : gmap string History) (e : AlgoEngine) :=
  mkEngine (rpcServer e) (use_mongodb e) (algoDict e) (orderAlgoDict e)
           (symbolAlgoDict e) (settingDict e) d (strategy_loggers e).

Definition set_strategy_loggers (l : list string) (e : AlgoEngine) :=
  mkEngine (rpcServer e) (use_mongodb e) (algoDict e) (orderAlgoDict e)
           (symbolAlgoDict e) (settingDict e) (historyDict e) l.

(** [AlgoEngine.__init__(mainEngine, eventEngine, use_mongodb)]. *)
Definition init_engine (use_mongodb : bool) : AlgoEngine :=
  mkEngine None use_mongodb [] ∅ ∅ [] ∅ [].

(** ** The monad of methods: state and exceptions *)

Inductive Result (A : Type) : Type :=
| Returned (a : A)
| Raised (e : PyExc).
Arguments Returned {A} a.
Arguments Raised {A} e.

Definition M (A : Type) : Type := World → Result A * World.

#[global] Instance M_ret : MRet M := λ A a w, (Returned a, w).

#[global] Instance M_bind : MBind M := λ A B f m w,
  match m w with
  | (Returned a, w') => f a w'
  | (Raised e, w') => (Raised e, w')
  end.

Definition raise {A} (e : PyExc) : M A := λ w, (Raised e, w).

(** [try: body except Exception as ex: handler(ex)]. *)
Definition try_except {A} (body : M A) (handler : PyExc → M A) : M A :=
  λ w, match body w with
       | (Returned a, w') => (Returned a, w')
       | (Raised e, w') => handler e w'
       end.

Definition get_self : M AlgoEngine := λ w, (Returned (engine w), w).
Definition get_trace : M (list Effect) := λ w, (Returned (trace w), w).
Definition get_world : M World := λ w, (Returned w, w).

Definition update_self (f : AlgoEngine → AlgoEngine) : M unit :=
  λ w, (Returned (), with_engine f w).

(** Stores into the dictionaries of [self]: [self.algoDict[k] = v] is
    [modify_algoDict (dict_set k v)], [del self.algoDict[k]] is
    [modify_algoDict (dict_del k)], and so on. *)
Definition modify_algoDict (f : pydict string Algo → pydict string Algo) : M unit :=
  update_self (λ e, set_algoDict (f (algoDict e)) e).

Definition modify_orderAlgoDict (f : gmap string Algo → gmap string Algo) : M unit :=
  update_self (λ e, set_orderAlgoDict (f (orderAlgoDict e)) e).

Definition modify_symbolAlgoDict
    (f : gmap string (gset Algo) → gmap string (gset Algo)) : M unit :=
  update_self (λ e, set_symbolAlgoDict (f (symbolAlgoDict e)) e).

Definition modify_settingDict
    (f : pydict value Setting → pydict value Setting) : M unit :=
  update_self (λ e, set_settingDict (f (settingDict e)) e).

Definition modify_historyDict (f : gmap string History → gmap string History) : M unit :=
  update_self (λ e, set_historyDict (f (historyDict e)) e).

Definition modify_strategy_loggers (f : list string → list string) : M unit :=
  update_self (λ e, set_strategy_loggers (f (strategy_loggers e)) e).

(** A call to a collaborator. *)
Definition emit (e : Effect) : M unit :=
  λ w, (Returned (), with_trace (λ t, t ++ [e]) w).

(** [f.write(json.dumps(l, indent=4))] into the opened setting file. *)
Definition write_setting_file (l : list Setting) : M unit :=
  λ w, (Returned (), with_settingFile (Some l) w).

(** [d[k]] on a dictionary. *)
Definition getitem {V} (d : pydict string V) (k : string) : M V :=
  match dict_get k d with
  | Some v => mret v
  | None => raise (KeyError (VStr k))
  end.

(** [for x in l: body(x)] over a list that the body does not touch. *)
Fixpoint for_each {A} (l : list A) (body : A → M unit) : M unit :=
  match l with
  | [] => mret ()
  | x :: r => body x;; for_each r body
  end.

(** [for k in view: body(k)] where [view] is the live [keys()] view of a
    dictionary of [self], read by [dict_of].  As CPython's dict iterator
    does, every step first compares the size of the dictionary with its
    size when the iteration began ([di_used]) and raises [RuntimeError] if
    it differs; only then does it yield the next key or stop.  [remaining]
    counts the keys not yet yielded. *)
Fixpoint for_keys_view {V} (dict_of : AlgoEngine → pydict string V)
    (di_used remaining : nat) (body : string → M unit) : M unit :=
  self ← get_self;
  if decide (length (dict_of self) = di_used) then
    match remaining with
    | 0 => mret ()
    | S r =>
        match dict_keys (dict_of self) !! (di_used - remaining) with
        | Some k => body k;; for_keys_view dict_of di_used r body
        | None => mret ()
        end
    end
  else raise (RuntimeError "dictionary changed size during iteration").

Definition for_keys {V} (dict_of : AlgoEngine → pydict string V)
    (body : string → M unit) : M unit :=
  self ← get_self;
  let n := length (dict_of self) in
  for_keys_view dict_of n n body.

(** Truth value of an optional string argument: [None] and [''] are false. *)
Definition truthy (s : option string) : bool :=
  match s with
  | Some s => bool_decide (s ≠ "")
  | None => false
  end.

(** ** Collaborators as parameters *)

(** What the main engine answers.  The order id that [sendOrder] returns
    may depend on the calls made so far. *)
Record MainEngine : Type := mkMainEngine
  { me_getContract : string → option VtContractData;
    me_getOrder : string → option VtOrderData;
    me_getTick : string → option VtTickData;
    me_sendOrder : VtOrderReq → string → list Effect → string;
    me_dbQuery : string → string → list Setting }.

(** The constants of [vtConstant] that the engine uses. *)
Record VtConstant : Type := mkVtConstant
  { DIRECTION_LONG : string; DIRECTION_SHORT : string;
    PRICETYPE_LIMITPRICE : string; OFFSET_OPEN : string }.

(** An algorithm template: what [algoClass.new(engine, setting)] gives,
    an instance or an exception; it may depend on the calls made so far
    (the templates number their instances). *)
Record AlgoClass : Type := mkAlgoClass
  { new : Setting → list Effect → Result Algo }.

(** ** The methods of [AlgoEngine] *)
Section Engine.
Variable mainEngine : MainEngine.
Variable vtConstant : VtConstant.
Variable ALGO_DICT : gmap value AlgoClass.

(** *** Logging *)

(** [createLogger(strategy_name)] for an algorithm's own logger. *)
Definition createLogger (strategy_name : string) : M unit :=
  emit (LoggerCreate strategy_name);;
  modify_strategy_loggers (λ l, l ++ [strategy_name]).

Definition writeLog (content : LogContent) (algo : option Algo) : M unit :=
  let log := mkLog content (algoName <$> algo) in
  emit (EventPut (mkEvent EVENT_ALGO_LOG (DataLog log))).

Definition writeError (content : LogContent) (algo : option Algo) : M unit :=
  let log := mkLog content (algoName <$> algo) in
  emit (EventPut (mkEvent EVENT_ALGO_LOG (DataLog log)));;
  match algo with
  | Some a =>
      self ← get_self;
      if bool_decide (algoName a ∈ strategy_loggers self) then
        emit (LoggerError (algoName a) content)
      else
        createLogger (algoName a);;
        try_except (emit (LoggerError (algoName a) content)) (λ _, mret ())
  | None => mret ()
  end;;
  emit (MainWriteError content).

(** *** Dispatcher *)

Definition processTickEvent (tick : VtTickData) : M unit :=
  self ← get_self;
  match symbolAlgoDict self !! t_vtSymbol tick with
  | Some l =>
      if bool_decide (l ≠ ∅) then
        for_each (elements l) (λ algo, emit (AlgoUpdateTick algo tick))
      else mret ()
  | None => mret ()
  end.

Definition processOrderEvent (order : VtOrderData) : M unit :=
  self ← get_self;
  match orderAlgoDict self !! o_vtOrderID order with
  | Some algo => emit (AlgoUpdateOrder algo order)
  | None => mret ()
  end.

Definition processTradeEvent (trade : VtTradeData) : M unit :=
  self ← get_self;
  match orderAlgoDict self !! tr_vtOrderID trade with
  | Some algo => emit (AlgoUpdateTrade algo trade)
  | None => mret ()
  end.

(** The loop runs over [self.algoDict.values()]; its turns are calls of
    [updateTimer], which the model does not let touch the dictionary. *)
Definition processTimerEvent : M unit :=
  self ← get_self;
  for_each (dict_values (algoDict self)) (λ algo, emit (AlgoUpdateTimer algo)).

(** *** Registry *)

Definition addAlgo (algoSetting : Setting) : M string :=
  templateName ← getitem algoSetting "templateName";
  algoClass ← match ALGO_DICT !! templateName with
              | Some c => mret c
              | None => raise (KeyError templateName)
              end;
  history ← get_trace;
  emit (AlgoNew templateName algoSetting);;
  algo ← match new algoClass algoSetting history with
         | Returned a => mret a
         | Raised e => raise e
         end;
  modify_algoDict (dict_set (algoName algo) algo);;
  mret (algoName algo).

Definition stopAlgo (algoName : string) : M unit :=
  self ← get_self;
  match dict_get algoName (algoDict self) with
  | Some algo =>
      emit (AlgoStop algo);;
      modify_algoDict (dict_del algoName)
  | None => mret ()
  end.

(** [l = self.algoDict.keys()] is a view of the dictionary, not a copy. *)
Definition stopAll : M unit :=
  for_keys algoDict (λ algoName, stopAlgo algoName).

(** *** Subscription manager *)

Definition subscribe (algo : Algo) (vtSymbol : string) : M unit :=
  match me_getContract mainEngine vtSymbol with
  | None =>
      writeLog (LogFmt "%s订阅行情失败，找不到合约%s"
                       [VStr (algoName algo); VStr vtSymbol]) None
  | Some contract =>
      self ← get_self;
      match symbolAlgoDict self !! vtSymbol with
      | Some _ =>
          (* s = self.symbolAlgoDict[vtSymbol]; s.add(algo) *)
          modify_symbolAlgoDict (alter (λ s, s ∪ {[algo]}) vtSymbol)
      | None =>
          (* s = set(); self.symbolAlgoDict[vtSymbol] = s; s.add(algo) *)
          modify_symbolAlgoDict (<[vtSymbol := ∅]>);;
          modify_symbolAlgoDict (alter (λ s, s ∪ {[algo]}) vtSymbol);;
          let req := mkSubscribeReq (c_symbol contract) (c_exchange contract) in
          emit (MainSubscribe req (c_gatewayName contract))
      end
  end.

(** *** Order gateway *)

Definition sendOrder (algo : Algo) (vtSymbol direction : string)
    (price volume : Z) (priceType offset : option string) : M string :=
  let contract := me_getContract mainEngine vtSymbol in
  (if bool_decide (contract = None) then
     writeLog (LogFmt "%s委托下单失败，找不到合约：%s"
                      [VStr (algoName algo); VStr vtSymbol]) None
   else mret ());;
  (* [req.symbol = contract.symbol]: an attribute of [None] when the
     lookup failed.  The first store [req.offset = OFFSET_CLOSETODAY] is
     overwritten by the [if offset] below on both branches. *)
  contract ← match contract with
             | Some c => mret c
             | None =>
                 raise (AttributeError
                          "'NoneType' object has no attribute 'symbol'")
             end;
  let req :=
    mkOrderReq vtSymbol (c_symbol contract) (c_exchange contract) direction
      (if truthy offset then default "" offset else OFFSET_OPEN vtConstant)
      price volume
      (if truthy priceType then default "" priceType
       else PRICETYPE_LIMITPRICE vtConstant) in
  history ← get_trace;
  emit (MainSendOrder req (c_gatewayName contract));;
  let vtOrderID := me_sendOrder mainEngine req (c_gatewayName contract) history in
  modify_orderAlgoDict (<[vtOrderID := algo]>);;
  mret vtOrderID.

Definition buy (algo : Algo) (vtSymbol : string) (price volume : Z)
    (priceType offset : option string) : M string :=
  sendOrder algo vtSymbol (DIRECTION_LONG vtConstant) price volume priceType offset.

Definition sell (algo : Algo) (vtSymbol : string) (price volume : Z)
    (priceType offset : option string) : M string :=
  sendOrder algo vtSymbol (DIRECTION_SHORT vtConstant) price volume priceType offset.

Definition cancelOrder (algo : Algo) (vtOrderID : string) : M unit :=
  match me_getOrder mainEngine vtOrderID with
  | None =>
      writeLog (LogFmt "%s委托撤单失败，找不到委托：%s"
                       [VStr (algoName algo); VStr vtOrderID]) None
  | Some order =>
      let req := mkCancelReq (o_symbol order) (o_exchange order)
                   (o_orderID order) (o_frontID order) (o_sessionID order) in
      emit (MainCancelOrder req (o_gatewayName order))
  end.

Definition getTick (algo : Algo) (vtSymbol : string) : M (option VtTickData) :=
  match me_getTick mainEngine vtSymbol with
  | None =>
      writeLog (LogFmt "%s查询行情失败，找不到报价：%s"
                       [VStr (algoName algo); VStr vtSymbol]) None;;
      mret None
  | Some tick => mret (Some tick)
  end.

Definition getContract (algo : Algo) (vtSymbol : string)
    : M (option VtContractData) :=
  match me_getContract mainEngine vtSymbol with
  | None =>
      writeLog (LogFmt "%s查询合约失败，找不到报价：%s"
                       [VStr (algoName algo); VStr vtSymbol]) None;;
      mret None
  | Some contract => mret (Some contract)
  end.

(** *** Setting store *)

(** [putSettingEvent(settingName, algoSetting)] stores the name into the
    dictionary it is given, in place.  When that object is also the one held
    in [self.settingDict] under key [k] ([stored = Some k]), the store shows
    there too. *)
Definition putSettingEvent (settingName : value) (algoSetting : Setting)
    (stored : option value) : M unit :=
  let algoSetting := dict_set "settingName" settingName algoSetting in
  match stored with
  | Some k => modify_settingDict (dict_set k algoSetting)
  | None => mret ()
  end;;
  emit (EventPut (mkEvent EVENT_ALGO_SETTING (DataDict algoSetting))).

Definition saveAlgoSettingToFile : M unit :=
  try_except
    (w ← get_world;
     if fs_writable w then
       let l := dict_values (settingDict (engine w)) in
       write_setting_file l
     else raise (IOError "open"))
    (λ ex, writeError (LogExc "保存算法配置异常:{},{}" ex) None).

(** One turn of the loops of [loadAlgoSettingFromFile] and
    [loadAlgoSetting]. *)
Definition load_one (algoSetting : Setting) : M unit :=
  settingName ← getitem algoSetting "settingName";
  modify_settingDict (dict_set settingName algoSetting);;
  putSettingEvent settingName algoSetting (Some settingName).

Definition loadAlgoSettingFromFile : M unit :=
  w ← get_world;
  match settingFile w with
  | None => writeLog (LogText "算法配置文件不存在") None
  | Some l =>
      try_except (for_each l load_one)
        (λ ex, writeError (LogExc "加载算法配置异常:{},{}" ex) None);;
      writeLog (LogText "加载算法配置成功") None
  end.

Definition saveAlgoSetting (algoSetting : Setting) : M unit :=
  settingName ← getitem algoSetting "settingName";
  modify_settingDict (dict_set settingName algoSetting);;
  emit (MainDbUpdate ALGOTRADING_DB_NAME SETTING_COLLECTION_NAME
          (DocSetting algoSetting) [("settingName", settingName)] true);;
  putSettingEvent settingName algoSetting (Some settingName).

Definition loadAlgoSetting : M unit :=
  self ← get_self;
  if negb (use_mongodb self) then loadAlgoSettingFromFile
  else
    let l := me_dbQuery mainEngine ALGOTRADING_DB_NAME SETTING_COLLECTION_NAME in
    for_each l load_one.

Definition deleteAlgoSetting (algoSetting : Setting) : M unit :=
  settingName ← getitem algoSetting "settingName";
  self ← get_self;
  (* del self.settingDict[settingName] *)
  match dict_get settingName (settingDict self) with
  | Some _ => modify_settingDict (dict_del settingName)
  | None => raise (KeyError settingName)
  end;;
  (if negb (use_mongodb self) then saveAlgoSettingToFile
   else emit (MainDbDelete ALGOTRADING_DB_NAME SETTING_COLLECTION_NAME
                [("settingName", settingName)]));;
  putSettingEvent settingName [] None.

(** *** Variable and parameter updates *)

Definition putVarEvent (algo : Algo) (d : Setting) : M unit :=
  let algoName := algoName algo in
  let d := dict_set "algoName" (VStr algoName) d in
  let event := mkEvent EVENT_ALGO_VAR (DataDict d) in
  emit (EventPut event);;
  self ← get_self;
  (if bool_decide (rpcServer self ≠ None) then emit (RpcPublish "AlgoTrading" event)
   else mret ());;
  if negb (use_mongodb self) then mret ()
  else
    let history := default (mkHistory algoName None None) (historyDict self !! algoName) in
    let history := mkHistory algoName (Some d) (h_param history) in
    modify_historyDict (<[algoName := history]>);;
    emit (MainDbUpdate ALGOTRADING_DB_NAME HISTORY_COLLECTION_NAME
            (DocHistory history) [("algoName", VStr algoName)] true).

Definition putParamEvent (algo : Algo) (d : Setting) : M unit :=
  let algoName := algoName algo in
  let d := dict_set "algoName" (VStr algoName) d in
  let event := mkEvent EVENT_ALGO_PARAM (DataDict d) in
  emit (EventPut event);;
  self ← get_self;
  (if bool_decide (rpcServer self ≠ None) then emit (RpcPublish "AlgoTrading" event)
   else mret ());;
  if negb (use_mongodb self) then mret ()
  else
    let history := default (mkHistory algoName None None) (historyDict self !! algoName) in
    let history := mkHistory algoName (h_var history) (Some d) in
    modify_historyDict (<[algoName := history]>);;
    emit (MainDbUpdate ALGOTRADING_DB_NAME HISTORY_COLLECTION_NAME
            (DocHistory history) [("algoName", VStr algoName)] true).

(** *** Control server *)

Definition startRpc (repPort pubPort : value) : M unit :=
  self ← get_self;
  match rpcServer self with
  | Some _ => mret ()
  | None =>
      emit (RpcNew repPort pubPort);;
      update_self (set_rpcServer (Some (mkRpcServer repPort pubPort)));;
      emit RpcStart;;
      writeLog (LogFmt "算法交易RPC服务启动成功，REP端口:%s，PUB端口:%s"
                       [repPort; pubPort]) None
  end.

Definition stop : M unit :=
  self ← get_self;
  match rpcServer self with
  | Some _ => emit RpcStop
  | None => mret ()
  end.

(** *** The engine's lifetime: any sequence of calls from outside *)

Inductive Call : Type :=
| CTick (tick : VtTickData)
| COrder (order : VtOrderData)
| CTrade (trade : VtTradeData)
| CTimer
| CAddAlgo (algoSetting : Setting)
| CStopAlgo (algoName : string)
| CStopAll
| CSubscribe (algo : Algo) (vtSymbol : string)
| CSendOrder (algo : Algo) (vtSymbol direction : string) (price volume : Z)
    (priceType offset : option string)
| CCancelOrder (algo : Algo) (vtOrderID : string)
| CWriteLog (content : LogContent) (algo : option Algo)
| CWriteError (content : LogContent) (algo : option Algo)
| CPutVarEvent (algo : Algo) (d : Setting)
| CPutParamEvent (algo : Algo) (d : Setting)
| CGetTick (algo : Algo) (vtSymbol : string)
| CGetContract (algo : Algo) (vtSymbol : string)
| CSaveAlgoSettingToFile
| CLoadAlgoSettingFromFile
| CSaveAlgoSetting (algoSetting : Setting)
| CLoadAlgoSetting
| CDeleteAlgoSetting (algoSetting : Setting)
| CStartRpc (repPort pubPort : value)
| CStop.

(** A call made from outside: its result is dropped, an exception it
    raises goes to the caller and the engine lives on. *)
Definition call (c : Call) (w : World) : World :=
  match c with
  | CTick tick => (processTickEvent tick w).2
  | COrder order => (processOrderEvent order w).2
  | CTrade trade => (processTradeEvent trade w).2
  | CTimer => (processTimerEvent w).2
  | CAddAlgo s => (addAlgo s w).2
  | CStopAlgo n => (stopAlgo n w).2
  | CStopAll => (stopAll w).2
  | CSubscribe a sym => (subscribe a sym w).2
  | CSendOrder a sym dir p v pt off => (sendOrder a sym dir p v pt off w).2
  | CCancelOrder a oid => (cancelOrder a oid w).2
  | CWriteLog c a => (writeLog c a w).2
  | CWriteError c a => (writeError c a w).2
  | CPutVarEvent a d => (putVarEvent a d w).2
  | CPutParamEvent a d => (putParamEvent a d w).2
  | CGetTick a sym => (getTick a sym w).2
  | CGetContract a sym => (getContract a sym w).2
  | CSaveAlgoSettingToFile => (saveAlgoSettingToFile w).2
  | CLoadAlgoSettingFromFile => (loadAlgoSettingFromFile w).2
  | CSaveAlgoSetting s => (saveAlgoSetting s w).2
  | CLoadAlgoSetting => (loadAlgoSetting w).2
  | CDeleteAlgoSetting s => (deleteAlgoSetting s w).2
  | CStartRpc rep pub => (startRpc rep pub w).2
  | CStop => (stop w).2
  end.

Definition run (cs : list Call) (w : World) : World := foldl (λ w c, call c w) w cs.

End Engine.

(** The number of control servers started so far. *)
Definition rpc_starts (t : list Effect) : nat :=
  length (filter (λ e, e = RpcStart) t).

(** The loop the registry's [stopAll] is meant to run: over a copy of the
    names ([list(self.algoDict.keys())]), taken before the first turn.  It
    is not the source's loop; [stopAll] above is. *)
Definition stopAll_snapshot : M unit :=
  self ← get_self;
  for_each (dict_keys (algoDict self)) stopAlgo.

(** ** Worlds that the properties name *)

(** The world [addAlgo] leaves when the template built [algo]. *)
Definition added (algoSetting : Setting) (templateName : value) (algo : Algo)
    (w : World) : World :=
  with_engine
    (λ e, set_algoDict (dict_set (algoName algo) algo (algoDict e)) e)
    (with_trace (λ t, t ++ [AlgoNew templateName algoSetting]) w).

(** The world [stopAlgo] leaves when [algoName] named the running [algo]. *)
Definition stopped (algoName : string) (algo : Algo) (w : World) : World :=
  with_engine
    (λ e, set_algoDict (dict_del algoName (algoDict e)) e)
    (with_trace (λ t, t ++ [AlgoStop algo]) w).

(** The upstream request [subscribe] makes for a contract. *)
Definition subscribe_call (contract : VtContractData) : Effect :=
  MainSubscribe (mkSubscribeReq (c_symbol contract) (c_exchange contract))
                (c_gatewayName contract).

(** The world [subscribe] leaves when the symbol had no set yet. *)
Definition subscribed_new (algo : Algo) (vtSymbol : string)
    (contract : VtContractData) (w : World) : World :=
  with_trace (λ t, t ++ [subscribe_call contract])
    (with_engine
       (λ e, set_symbolAlgoDict (<[vtSymbol := {[algo]}]> (symbolAlgoDict e)) e) w).

(** The world [subscribe] leaves when the symbol had a set already. *)
Definition subscribed_known (algo : Algo) (vtSymbol : string) (w : World)
    : World :=
  with_engine
    (λ e, set_symbolAlgoDict
            (alter (λ s, s ∪ {[algo]}) vtSymbol (symbolAlgoDict e)) e) w.

(** The log event of a method that found no contract. *)
Definition log_event (content : LogContent) : Effect :=
  EventPut (mkEvent EVENT_ALGO_LOG (DataLog (mkLog content None))).

(** The request [sendOrder] builds for a known contract. *)
Definition order_req (vtConstant : VtConstant) (contract : VtContractData)
    (vtSymbol direction : string) (price volume : Z)
    (priceType offset : option string) : VtOrderReq :=
  mkOrderReq vtSymbol (c_symbol contract) (c_exchange contract) direction
    (if truthy offset then default "" offset else OFFSET_OPEN vtConstant)
    price volume
    (if truthy priceType then default "" priceType
     else PRICETYPE_LIMITPRICE vtConstant).

(** The world [sendOrder] leaves after sending [req] for [algo] through
    the gateway [gw]. *)
Definition order_sent (mainEngine : MainEngine) (algo : Algo)
    (req : VtOrderReq) (gw : string) (w : World) : World :=
  with_engine
    (λ e, set_orderAlgoDict
            (<[me_sendOrder mainEngine req gw (trace w) := algo]> (orderAlgoDict e)) e)
    (with_trace (λ t, t ++ [MainSendOrder req gw]) w).

(** Whether a call is an order submission to the main engine. *)
Definition is_send_order (e : Effect) : bool :=
  match e with
  | MainSendOrder _ _ => true
  | _ => false
  end.

(** The setting event [putSettingEvent] puts for the dictionary [d]. *)
Definition setting_event (d : Setting) : Effect :=
  EventPut (mkEvent EVENT_ALGO_SETTING (DataDict d)).

(** Every entry of the setting map sits under its own [settingName]. *)
Definition self_keyed (d : pydict value Setting) : Prop :=
  Forall (λ ks, dict_get "settingName" ks.2 = Some ks.1) d.

(** The calls that deleting a setting makes on the active backend and on
    the event engine, when the file can be written. *)
Definition delete_calls (use_mongodb : bool) (settingName : value)
    : list Effect :=
  (if use_mongodb then
     [MainDbDelete ALGOTRADING_DB_NAME SETTING_COLLECTION_NAME
        [("settingName", settingName)]]
   else [])
  ++ [setting_event [("settingName", settingName)]].

(** The world the first [startRpc] leaves. *)
Definition rpc_started (repPort pubPort : value) (w : World) : World :=
  with_trace
    (λ t, t ++ [RpcNew repPort pubPort; RpcStart;
                log_event (LogFmt "算法交易RPC服务启动成功，REP端口:%s，PUB端口:%s"
                                  [repPort; pubPort])])
    (with_engine (set_rpcServer (Some (mkRpcServer repPort pubPort))) w).

(** The engine as [__init__] leaves it, in a world with no call made yet. *)
Definition init_world (use_mongodb : bool) (file : option (list Setting))
    (writable : bool) : World :=
  mkWorld (init_engine use_mongodb) file writable [].

(** ** Frames and invariants *)

(** [keeps R m]: running [m] takes a world to one that [R] relates to it,
    whether [m] returns or raises. *)
Definition keeps (R : relation World) {A} (m : M A) : Prop :=
  ∀ w, R w (m w).2.

(** The control server is left alone: [self.rpcServer] is the same and no
    server was started. *)
Definition same_rpc : relation World := λ w w',
  rpcServer (engine w') = rpcServer (engine w)
  ∧ rpc_starts (trace w') = rpc_starts (trace w).

(** One server started if [self.rpcServer] is set, none otherwise. *)
Definition rpc_inv (w : World) : Prop :=
  rpc_starts (trace w) = match rpcServer (engine w) with Some _ => 1 | None => 0 end.

(** The two dictionaries that the engine iterates over have distinct keys,
    as every Python dictionary has. *)
Definition wf_world (w : World) : Prop :=
  dict_wf (algoDict (engine w)) ∧ dict_wf (settingDict (engine w)).

Definition stays_wf : relation World := λ w w', wf_world w → wf_world w'.

(** Whether a call is a market-data subscription at the main engine. *)
Definition is_subscribe (e : Effect) : bool :=
  match e with
  | MainSubscribe _ _ => true
  | _ => false
  end.

(** The number of upstream subscriptions made so far. *)
Definition subscribe_calls (t : list Effect) : nat :=
  length (filter is_subscribe t).

(** The subscription index is left alone and no upstream subscription was
    made. *)
Definition same_subscriptions : relation World := λ w w',
  symbolAlgoDict (engine w') = symbolAlgoDict (engine w)
  ∧ subscribe_calls (trace w') = subscribe_calls (trace w).

(** As many upstream subscriptions as symbols with a subscription set, and
    no set is empty. *)
Definition subscription_inv (w : World) : Prop :=
  subscribe_calls (trace w) = size (symbolAlgoDict (engine w))
  ∧ ∀ vtSymbol s, symbolAlgoDict (engine w) !! vtSymbol = Some s → s ≠ ∅.

(** No order loses its owner entry and no subscription set loses a member. *)
Definition entries_kept : relation World := λ w w',
  (∀ vtOrderID, is_Some (orderAlgoDict (engine w) !! vtOrderID) →
                is_Some (orderAlgoDict (engine w') !! vtOrderID))
  ∧ (∀ vtSymbol s, symbolAlgoDict (engine w) !! vtSymbol = Some s →
       ∃ s', symbolAlgoDict (engine w') !! vtSymbol = Some s' ∧ s ⊆ s').

(** ** A small trading session, for examples *)
Module Session.

Definition mainEngine : MainEngine :=
  mkMainEngine
    (λ s, if decide (s = "rb1905") then Some (mkContract "rb1905" "SHFE" "CTP")
          else None)
    (λ _, None)
    (λ _, None)
    (λ _ _ _, "CTP.1")
    (λ _ _, []).

Definition vtConstant : VtConstant := mkVtConstant "多" "空" "限价" "开仓".

Definition twap1 : Algo := mkAlgo 1 "Twap_1".
Definition twap2 : Algo := mkAlgo 2 "Twap_2".

(** A template that names its instance after the number of calls so far. *)
Definition TwapAlgo : AlgoClass :=
  mkAlgoClass (λ _ history,
    match history with
    | [] => Returned twap1
    | _ => Returned twap2
    end).

Definition ALGO_DICT : gmap value AlgoClass := {[ VStr "Twap" := TwapAlgo ]}.

Definition twapSetting : Setting :=
  [("settingName", VStr "T1"); ("templateName", VStr "Twap");
   ("vtSymbol", VStr "rb1905"); ("volume", VInt 100)].

Definition dmaSetting : Setting :=
  [("settingName", VStr "D1"); ("templateName", VStr "Dma")].

(** A fresh engine on the file backend, no setting file yet. *)
Definition fresh : World := mkWorld (init_engine false) None true [].

(** The same engine with two running algorithms. *)
Definition two_active : World :=
  with_engine (set_algoDict [("Twap_1", twap1); ("Twap_2", twap2)]) fresh.

(** The same engine holding two settings. *)
Definition two_settings : World :=
  with_engine
    (set_settingDict [(VStr "T1", twapSetting); (VStr "D1", dmaSetting)]) fresh.

Definition tick : VtTickData := mkTick "rb1905" 3500.
Definition order1 : VtOrderData :=
  mkOrder "CTP.1" "rb1905" "SHFE" "1" 0 0 "CTP".
Definition trade1 : VtTradeData := mkTrade "CTP.1" 10.

End Session.

(** ** Further worlds and measures *)

(** A dictionary with a [settingName]. *)
Definition named (s : Setting) : Prop := is_Some (dict_get "settingName" s).

(** The setting map after the loop of [loadAlgoSettingFromFile] and of
    [loadAlgoSetting] has run over the entries [l], each one named. *)
Definition loaded (l : list Setting) (d : pydict value Setting)
    : pydict value Setting :=
  foldl (λ d s, match dict_get "settingName" s with
                | Some k => dict_set k s d
                | None => d
                end) d l.

(** The world after that loop: the entries stored and one event each. *)
Definition after_load (l : list Setting) (w : World) : World :=
  with_trace (λ t, t ++ (setting_event <$> l))
    (with_engine (λ e, set_settingDict (loaded l (settingDict e)) e) w).

(** The calls by which [writeError] reports a caught exception. *)
Definition error_calls (template : string) (ex : PyExc) : list Effect :=
  [log_event (LogExc template ex); MainWriteError (LogExc template ex)].

(** The entries of [l] that carry the name [k]. *)
Definition entries_named (k : value) (l : list Setting) : list Setting :=
  filter (λ s, dict_get "settingName" s = Some k) l.

(** The methods that write the setting file. *)
Definition writes_file (c : Call) : bool :=
  match c with
  | CSaveAlgoSettingToFile | CDeleteAlgoSetting _ => true
  | _ => false
  end.

(** The setting file is as it was. *)
Definition same_file : relation World := λ w w', settingFile w' = settingFile w.

(** The world [saveAlgoSetting] leaves for a setting named [k]. *)
Definition setting_saved (k : value) (s : Setting) (w : World) : World :=
  with_trace
    (λ t, t ++ [MainDbUpdate ALGOTRADING_DB_NAME SETTING_COLLECTION_NAME
                  (DocSetting s) [("settingName", k)] true;
                setting_event s])
    (with_engine (λ e, set_settingDict (dict_set k s (settingDict e)) e) w).

(** More of the trading session. *)
Module Desk.

(** A document without a name. *)
Definition nameless : Setting := [("templateName", VStr "Dma")].

(** An engine on the file backend whose file has a nameless entry between
    two good ones. *)
Definition file_with_gap : World :=
  mkWorld (init_engine false)
          (Some [Session.twapSetting; nameless; Session.dmaSetting]) true [].

(** An engine on the file backend that holds an old setting "T1" and whose
    file has "T1" twice and "D1" once. *)
Definition oldTwap : Setting :=
  [("settingName", VStr "T1"); ("templateName", VStr "Twap"); ("volume", VInt 1)].

Definition newTwap : Setting :=
  [("settingName", VStr "T1"); ("templateName", VStr "Twap"); ("volume", VInt 7)].

Definition file_with_repeat : World :=
  mkWorld (set_settingDict [(VStr "T1", oldTwap)] (init_engine false))
          (Some [Session.twapSetting; Session.dmaSetting; newTwap]) true [].

(** A main engine whose database holds one good and one nameless document. *)
Definition mainEngine : MainEngine :=
  mkMainEngine (me_getContract Session.mainEngine)
    (λ id, if decide (id = "CTP.1") then Some Session.order1 else None)
    (λ s, if decide (s = "rb1905") then Some Session.tick else None)
    (me_sendOrder Session.mainEngine)
    (λ _ _, [Session.twapSetting; nameless; Session.dmaSetting]).

(** A fresh engine on the database backend. *)
Definition fresh_db : World := mkWorld (init_engine true) None true [].

End Desk.

(** The methods that record an owner for an order id. *)
Definition sends_order (c : Call) : bool :=
  match c with
  | CSendOrder _ _ _ _ _ _ _ => true
  | _ => false
  end.

(** The ownership index is as it was. *)
Definition same_orders : relation World := λ w w',
  orderAlgoDict (engine w') = orderAlgoDict (engine w).

(** More of the trading session: templates and settings that fail. *)
Module Floor.

(** A template whose constructor misses a parameter. *)
Definition BrokenAlgo : AlgoClass :=
  mkAlgoClass (λ _ _, Raised (KeyError (VStr "vtSymbol"))).

Definition ALGO_DICT : gmap value AlgoClass :=
  <[VStr "Broken" := BrokenAlgo]> Session.ALGO_DICT.




End Floor.

(** The names of the per-algorithm loggers created so far, in order. *)
Definition logger_creates (t : list Effect) : list string :=
  omap (λ e, match e with LoggerCreate n => Some n | _ => None end) t.

(** The loggers are left alone. *)
Definition same_loggers : relation World := λ w w',
  strategy_loggers (engine w') = strategy_loggers (engine w)
  ∧ logger_creates (trace w') = logger_creates (trace w).


(** The events published on the RPC channel so far, in order. *)
Definition published (t : list Effect) : list Event :=
  omap (λ e, match e with RpcPublish _ ev => Some ev | _ => None end) t.

(** Whether an event is a variable or a parameter update. *)
Definition is_state_event (ev : Event) : bool :=
  bool_decide (type_ ev = EVENT_ALGO_VAR ∨ type_ ev = EVENT_ALGO_PARAM).

(** The variable and parameter updates put on the event engine so far. *)
Definition state_events (t : list Effect) : list Event :=
  omap (λ e, match e with
             | EventPut ev => if is_state_event ev then Some ev else None
             | _ => None
             end) t.

(** The topics published to, so far. *)
Definition published_topics (t : list Effect) : list string :=
  omap (λ e, match e with RpcPublish topic _ => Some topic | _ => None end) t.

(** Nothing was published or updated, and the server is the same. *)
Definition same_mirror : relation World := λ w w',
  rpcServer (engine w') = rpcServer (engine w)
  ∧ published (trace w') = published (trace w)
  ∧ published_topics (trace w') = published_topics (trace w)
  ∧ state_events (trace w') = state_events (trace w).

(** What was published is the tail of the updates put locally, nothing
    before a server exists, and all of it under the topic "AlgoTrading". *)
Definition mirror_inv (w : World) : Prop :=
  published (trace w) `suffix_of` state_events (trace w)
  ∧ (rpcServer (engine w) = None → published (trace w) = [])
  ∧ Forall (λ topic, topic = "AlgoTrading") (published_topics (trace w)).

(** The event that [putVarEvent] and [putParamEvent] put for [algo]. *)
Definition state_event (type_ : string) (algo : Algo) (d : Setting) : Event :=
  mkEvent type_ (DataDict (dict_set "algoName" (VStr (algoName algo)) d)).

(** The history documents written to the database so far, in order. *)
Definition history_writes (t : list Effect) : list History :=
  omap (λ e, match e with
             | MainDbUpdate _ _ (DocHistory h) _ _ => Some h
             | _ => None
             end) t.

(** The history of the algorithms is left alone. *)
Definition same_history : relation World := λ w w',
  use_mongodb (engine w') = use_mongodb (engine w)
  ∧ historyDict (engine w') = historyDict (engine w)
  ∧ history_writes (trace w') = history_writes (trace w).

(** The payload of an update, with the name stored into it. *)
Definition stamped (algo : Algo) (d : Setting) : Setting :=
  dict_set "algoName" (VStr (algoName algo)) d.


(** More of the trading session: engines on the database backend. *)
Module Vault.

(** An engine on the database backend with a started control server. *)
Definition serving : World :=
  rpc_started (VInt 2014) (VInt 2016) Desk.fresh_db.

Definition vars1 : Setting := [("count", VInt 1)].
Definition vars2 : Setting := [("count", VInt 2)].
Definition params : Setting := [("volume", VInt 100)].

End Vault.

(** More of the trading session: a setting file that cannot be written. *)
Module Locked.

(** An engine on the file backend that holds "T1", whose file holds "T1"
    too and cannot be opened for writing. *)
Definition read_only : World :=
  mkWorld (set_settingDict [(VStr "T1", Session.twapSetting)] (init_engine false))
          (Some [Session.twapSetting]) false [].

End Locked.

(** * Properties *)

(** ** Dictionaries *)
Section PyDictFacts.
Context {K V : Type} `{EqDecision K}.
Implicit Types (d : pydict K V) (k : K) (v : V).

Lemma dict_get_set_eq d k v : dict_get k (dict_set k v d) = Some v.
Proof.
  induction d as [|[k' v'] r IH]; simpl.
  - by rewrite decide_True.
  - destruct (decide (k = k')) as [->|Hne]; simpl.
    + by rewrite decide_True.
    + by rewrite decide_False.
Qed.

Lemma dict_get_set_ne d k k' v :
  k ≠ k' → dict_get k' (dict_set k v d) = dict_get k' d.
Proof.
  intros Hne. induction d as [|[k0 v0] r IH]; simpl.
  - rewrite decide_False; [done | congruence].
  - destruct (decide (k = k0)) as [->|Hk]; simpl.
    + rewrite !decide_False; [done | congruence | congruence].
    + by rewrite IH.
Qed.

Lemma dict_get_None d k : dict_get k d = None ↔ k ∉ dict_keys d.
Proof.
  unfold dict_keys. induction d as [|[k' v'] r IH]; simpl.
  - split; [intros _; apply not_elem_of_nil | done].
  - rewrite not_elem_of_cons. destruct (decide (k = k')) as [->|Hne].
    + split; [done | intros [? _]; congruence].
    + rewrite IH. tauto.
Qed.

Lemma dict_get_Some_elem d k v : dict_get k d = Some v → (k, v) ∈ d.
Proof.
  induction d as [|[k' v'] r IH]; simpl; [done|].
  destruct (decide (k = k')) as [->|Hne].
  - intros [= ->]. apply list_elem_of_here.
  - intros Hg. apply list_elem_of_further. auto.
Qed.

Lemma dict_get_Some_values d k v : dict_get k d = Some v → v ∈ dict_values d.
Proof.
  intros Hg%dict_get_Some_elem. unfold dict_values.
  apply list_elem_of_fmap. by exists (k, v).
Qed.

Lemma dict_get_Some_keys d k v : dict_get k d = Some v → k ∈ dict_keys d.
Proof.
  intros Hg%dict_get_Some_elem. unfold dict_keys.
  apply list_elem_of_fmap. by exists (k, v).
Qed.

Lemma dict_elem_get d k v : dict_wf d → (k, v) ∈ d → dict_get k d = Some v.
Proof.
  unfold dict_wf, dict_keys. induction d as [|[k' v'] r IH]; simpl.
  - intros _ Hin. by apply elem_of_nil in Hin.
  - intros [Hk Hr]%NoDup_cons [Heq|Hin]%elem_of_cons.
    + injection Heq as -> ->. by rewrite decide_True.
    + destruct (decide (k = k')) as [->|Hne]; [|by auto].
      exfalso. apply Hk. apply list_elem_of_fmap. by exists (k', v).
Qed.

Lemma dict_set_id d k v : dict_get k d = Some v → dict_set k v d = d.
Proof.
  induction d as [|[k' v'] r IH]; simpl; [done|].
  destruct (decide (k = k')) as [->|Hne].
  - by intros [= ->].
  - intros Hg. by rewrite IH.
Qed.

Lemma dict_set_fresh d k v : dict_get k d = None → dict_set k v d = d ++ [(k, v)].
Proof.
  induction d as [|[k' v'] r IH]; simpl; [done|].
  destruct (decide (k = k')) as [->|Hne]; [done|].
  intros Hg. by rewrite IH.
Qed.

Lemma dict_keys_set d k v :
  dict_keys (dict_set k v d) =
  match dict_get k d with
  | Some _ => dict_keys d
  | None => dict_keys d ++ [k]
  end.
Proof.
  unfold dict_keys. induction d as [|[k' v'] r IH]; csimpl; [done|].
  destruct (decide (k = k')) as [->|Hne]; csimpl; [done|].
  rewrite IH. by destruct (dict_get k r).
Qed.

Lemma dict_keys_del d k : dict_keys (dict_del k d) ⊆ dict_keys d.
Proof.
  unfold dict_keys. induction d as [|[k' v'] r IH]; csimpl; [done|].
  destruct (decide (k = k')) as [->|Hne]; csimpl.
  - intros x Hx. by apply list_elem_of_further.
  - intros x [->|Hx]%elem_of_cons; [apply list_elem_of_here|].
    apply list_elem_of_further. by apply IH.
Qed.

Lemma dict_get_del_eq d k : dict_wf d → dict_get k (dict_del k d) = None.
Proof.
  unfold dict_wf, dict_keys. induction d as [|[k' v'] r IH]; simpl; [done|].
  intros [Hk Hr]%NoDup_cons.
  destruct (decide (k = k')) as [->|Hne]; simpl.
  - by apply dict_get_None.
  - rewrite decide_False; auto.
Qed.

Lemma dict_get_del_ne d k k' :
  k ≠ k' → dict_get k' (dict_del k d) = dict_get k' d.
Proof.
  intros Hne. induction d as [|[k0 v0] r IH]; simpl; [done|].
  destruct (decide (k = k0)) as [->|Hk]; simpl.
  - rewrite decide_False; [done | congruence].
  - by rewrite IH.
Qed.

Lemma dict_del_absent d k : dict_get k d = None → dict_del k d = d.
Proof.
  induction d as [|[k' v'] r IH]; simpl; [done|].
  destruct (decide (k = k')) as [->|Hne]; [done|].
  intros Hg. by rewrite IH.
Qed.

Lemma dict_set_wf d k v : dict_wf d → dict_wf (dict_set k v d).
Proof.
  unfold dict_wf. rewrite dict_keys_set.
  destruct (dict_get k d) eqn:Hg; [done|].
  intros Hd. apply NoDup_app. split_and!; [done | | apply NoDup_singleton].
  intros x Hx ->%list_elem_of_singleton. by apply dict_get_None in Hg.
Qed.

Lemma dict_del_wf d k : dict_wf d → dict_wf (dict_del k d).
Proof.
  unfold dict_wf, dict_keys. induction d as [|[k' v'] r IH]; simpl; [done|].
  intros [Hk Hr]%NoDup_cons.
  destruct (decide (k = k')) as [->|Hne]; simpl; [done|].
  apply NoDup_cons. split; [|auto].
  intros Hin. apply Hk. by apply (dict_keys_del r k).
Qed.

End PyDictFacts.

(** ** The monad *)

Ltac unfold_m :=
  unfold mbind, M_bind, mret, M_ret, raise, try_except, getitem,
    get_self, get_trace, get_world, modify_algoDict, modify_orderAlgoDict,
    modify_symbolAlgoDict, modify_settingDict, modify_historyDict,
    modify_strategy_loggers, update_self, emit, write_setting_file in *.

Lemma with_engine_id (w : World) (f : AlgoEngine → AlgoEngine) :
  f (engine w) = engine w → with_engine f w = w.
Proof. destruct w; unfold with_engine; simpl. by intros ->. Qed.

Lemma with_trace_nil (w : World) : with_trace (λ t, t ++ []) w = w.
Proof. destruct w; unfold with_trace; simpl. by rewrite app_nil_r. Qed.

Lemma with_trace_app (w : World) (l1 l2 : list Effect) :
  with_trace (λ t, t ++ l2) (with_trace (λ t, t ++ l1) w)
  = with_trace (λ t, t ++ (l1 ++ l2)) w.
Proof. destruct w; unfold with_trace; simpl. by rewrite app_assoc. Qed.

Lemma set_algoDict_id (e : AlgoEngine) : set_algoDict (algoDict e) e = e.
Proof. by destruct e. Qed.

Lemma set_settingDict_id (e : AlgoEngine) : set_settingDict (settingDict e) e = e.
Proof. by destruct e. Qed.

(** A loop whose turns only call collaborators appends one call per turn. *)
Lemma for_each_emit {A} (f : A → Effect) (l : list A) (w : World) :
  for_each l (λ x, emit (f x)) w
  = (Returned (), with_trace (λ t, t ++ (f <$> l)) w).
Proof.
  revert w. induction l as [|x r IH]; intros w; simpl.
  - by rewrite with_trace_nil.
  - unfold_m. rewrite IH. by rewrite with_trace_app.
Qed.

(** ** Registry: [addAlgo] *)
Section AddAlgo.
Variable ALGO_DICT : gmap value AlgoClass.

Lemma processTimerEvent_trace (w : World) :
  processTimerEvent w
  = (Returned (),
     with_trace (λ t, t ++ (AlgoUpdateTimer <$> dict_values (algoDict (engine w)))) w).
Proof.
  unfold processTimerEvent, mbind, M_bind, get_self. apply for_each_emit.
Qed.

(** C1. A setting whose [templateName] is registered in [ALGO_DICT], and
    from which the template builds an instance, makes [addAlgo] record the
    instance in [algoDict] under its [algoName] and return that name; the
    name is then among the active names and the next timer event calls
    the instance's [updateTimer].  A [templateName] that is not registered makes
    [addAlgo] raise [KeyError] to its caller, the engine untouched. *)
Theorem addAlgo_registered (algoSetting : Setting) (templateName : value)
    (w : World) :
  dict_get "templateName" algoSetting = Some templateName →
  (∀ algoClass algo,
      ALGO_DICT !! templateName = Some algoClass →
      new algoClass algoSetting (trace w) = Returned algo →
      let w' := added algoSetting templateName algo w in
      addAlgo ALGO_DICT algoSetting w = (Returned (algoName algo), w')
      ∧ dict_get (algoName algo) (algoDict (engine w')) = Some algo
      ∧ algoName algo ∈ dict_keys (algoDict (engine w'))
      ∧ ∃ deliveries,
          processTimerEvent w'
          = (Returned (), with_trace (λ t, t ++ deliveries) w')
          ∧ AlgoUpdateTimer algo ∈ deliveries)
  ∧ (ALGO_DICT !! templateName = None →
      addAlgo ALGO_DICT algoSetting w = (Raised (KeyError templateName), w)).
Proof.
  intros Htn. split.
  - intros algoClass algo Hreg Hnew w'.
    assert (Hget : dict_get (algoName algo) (algoDict (engine w')) = Some algo).
    { subst w'. destruct w as [e f fw t]. simpl. apply dict_get_set_eq. }
    split_and!.
    + unfold addAlgo. unfold_m. rewrite Htn. simpl. rewrite Hreg. simpl.
      by rewrite Hnew.
    + done.
    + by eapply dict_get_Some_keys.
    + eexists. split; [apply processTimerEvent_trace|].
      apply list_elem_of_fmap_2. by eapply dict_get_Some_values.
  - intros Hreg. unfold addAlgo. unfold_m. rewrite Htn. simpl. by rewrite Hreg.
Qed.

End AddAlgo.

Lemma addAlgo_registered_witness :
  addAlgo Session.ALGO_DICT Session.twapSetting Session.fresh
  = (Returned "Twap_1",
     added Session.twapSetting (VStr "Twap") Session.twap1 Session.fresh)
  ∧ addAlgo Session.ALGO_DICT Session.dmaSetting Session.fresh
    = (Raised (KeyError (VStr "Dma")), Session.fresh).
Proof.
  split.
  - refine (proj1 (proj1 (addAlgo_registered _ Session.twapSetting (VStr "Twap")
                            Session.fresh _) Session.TwapAlgo Session.twap1 _ _)).
    + reflexivity.
    + reflexivity.
    + reflexivity.
  - refine (proj2 (addAlgo_registered _ Session.dmaSetting (VStr "Dma")
                     Session.fresh _) _).
    + reflexivity.
    + reflexivity.
Defined.

(** ** Registry: [stopAlgo] and [stopAll] *)

Lemma stopAlgo_present (algoName : string) (algo : Algo) (w : World) :
  dict_get algoName (algoDict (engine w)) = Some algo →
  stopAlgo algoName w = (Returned (), stopped algoName algo w).
Proof. intros Hget. unfold stopAlgo. unfold_m. by rewrite Hget. Qed.

Lemma stopAlgo_absent (algoName : string) (w : World) :
  dict_get algoName (algoDict (engine w)) = None →
  stopAlgo algoName w = (Returned (), w).
Proof. intros Hget. unfold stopAlgo. unfold_m. by rewrite Hget. Qed.

(** C8. [stopAlgo] on an active name calls the instance's [stop] once and
    takes the name out of [algoDict], the other names staying; a second
    [stopAlgo] with the same name returns without a change; and neither
    [orderAlgoDict] nor [symbolAlgoDict] is touched. *)
Theorem stopAlgo_removes (algoName : string) (algo : Algo) (w : World) :
  dict_wf (algoDict (engine w)) →
  dict_get algoName (algoDict (engine w)) = Some algo →
  let w' := stopped algoName algo w in
  stopAlgo algoName w = (Returned (), w')
  ∧ trace w' = trace w ++ [AlgoStop algo]
  ∧ dict_get algoName (algoDict (engine w')) = None
  ∧ (∀ other, other ≠ algoName →
       dict_get other (algoDict (engine w')) = dict_get other (algoDict (engine w)))
  ∧ stopAlgo algoName w' = (Returned (), w')
  ∧ orderAlgoDict (engine w') = orderAlgoDict (engine w)
  ∧ symbolAlgoDict (engine w') = symbolAlgoDict (engine w).
Proof.
  intros Hwf Hget w'.
  assert (Hgone : dict_get algoName (algoDict (engine w')) = None).
  { subst w'. destruct w as [e f fw t]; simpl in *. by apply dict_get_del_eq. }
  split_and!; try done.
  - by apply stopAlgo_present.
  - intros other Hne. subst w'. destruct w as [e f fw t]; simpl.
    by apply dict_get_del_ne.
  - by apply stopAlgo_absent.
Qed.

Lemma stopAlgo_removes_witness :
  stopAlgo "Twap_1" Session.two_active
  = (Returned (), stopped "Twap_1" Session.twap1 Session.two_active)
  ∧ stopAlgo "Twap_1" (stopped "Twap_1" Session.twap1 Session.two_active)
    = (Returned (), stopped "Twap_1" Session.twap1 Session.two_active).
Proof.
  assert (Hwf : dict_wf (algoDict (engine Session.two_active))).
  { unfold dict_wf. apply (bool_decide_unpack _). vm_compute. exact I. }
  pose proof (stopAlgo_removes "Twap_1" Session.twap1 Session.two_active
                Hwf eq_refl) as H.
  exact (conj (proj1 H) (proj1 (proj2 (proj2 (proj2 (proj2 H)))))).
Defined.

(** Once the dictionary has changed size, the next step of the iteration
    raises. *)
Lemma for_keys_view_changed {V} (dict_of : AlgoEngine → pydict string V)
    (di_used remaining : nat) (body : string → M unit) (w : World) :
  length (dict_of (engine w)) ≠ di_used →
  for_keys_view dict_of di_used remaining body w
  = (Raised (RuntimeError "dictionary changed size during iteration"), w).
Proof.
  intros Hne. destruct remaining; simpl; unfold_m;
    (case_decide; [contradiction | reflexivity]).
Qed.

Lemma stopAll_empty (w : World) :
  algoDict (engine w) = [] → stopAll w = (Returned (), w).
Proof.
  intros Hd. unfold stopAll, for_keys, mbind, M_bind, get_self. rewrite Hd.
  cbn [length for_keys_view]. unfold mbind, M_bind, get_self. by rewrite Hd.
Qed.

(** With at least one running algorithm, [stopAll] stops the first one and
    then raises: the deletion in [stopAlgo] changed the size of the
    dictionary that the loop is iterating over. *)
Lemma stopAll_nonempty (name : string) (algo : Algo)
    (rest : pydict string Algo) (w : World) :
  algoDict (engine w) = (name, algo) :: rest →
  stopAll w
  = (Raised (RuntimeError "dictionary changed size during iteration"),
     stopped name algo w)
  ∧ algoDict (engine (stopped name algo w)) = rest.
Proof.
  intros Hd.
  assert (Hrest : algoDict (engine (stopped name algo w)) = rest).
  { destruct w as [e f fw t]; simpl in *. rewrite Hd. simpl.
    by rewrite decide_True. }
  split; [|done].
  unfold stopAll, for_keys, mbind, M_bind, get_self. rewrite Hd.
  cbn [length for_keys_view]. unfold mbind, M_bind, get_self. rewrite Hd.
  cbn [length]. rewrite decide_True by done. rewrite Nat.sub_diag.
  cbn [dict_keys fmap list_fmap fst lookup list_lookup].
  rewrite (stopAlgo_present name algo) by (rewrite Hd; simpl; by rewrite decide_True).
  apply for_keys_view_changed. rewrite Hrest. lia.
Qed.

(** C2, at two running algorithms: [stopAll] stops the first, raises
    [RuntimeError] and leaves the second one active and never stopped. *)
Theorem stopAll_two_active_raises :
  stopAll Session.two_active
  = (Raised (RuntimeError "dictionary changed size during iteration"),
     stopped "Twap_1" Session.twap1 Session.two_active)
  ∧ algoDict (engine (stopped "Twap_1" Session.twap1 Session.two_active))
    = [("Twap_2", Session.twap2)]
  ∧ trace (stopped "Twap_1" Session.twap1 Session.two_active)
    = [AlgoStop Session.twap1].
Proof.
  destruct (stopAll_nonempty "Twap_1" Session.twap1 [("Twap_2", Session.twap2)]
              Session.two_active eq_refl) as [Hrun Hrest].
  split_and!; [exact Hrun | exact Hrest | reflexivity].
Qed.

(** The loop over a copy of the names does what is asked of [stopAll]:
    every running instance is stopped once, in order, and no name is left. *)
Lemma stopAll_snapshot_stops_all (w : World) :
  dict_wf (algoDict (engine w)) →
  ∃ w', stopAll_snapshot w = (Returned (), w')
        ∧ algoDict (engine w') = []
        ∧ trace w' = trace w ++ (AlgoStop <$> dict_values (algoDict (engine w))).
Proof.
  unfold stopAll_snapshot, mbind, M_bind, get_self.
  generalize (eq_refl (algoDict (engine w))).
  generalize (algoDict (engine w)) at 1 3 4 5 as d.
  intros d. revert w. induction d as [|[k a] r IH]; intros w Hd Hwf.
  - exists w. simpl. by rewrite app_nil_r.
  - apply NoDup_cons in Hwf as [Hk Hr].
    destruct (stopAll_nonempty k a r w (eq_sym Hd)) as [_ Hrest].
    destruct (IH (stopped k a w) (eq_sym Hrest) Hr) as (w' & Hrun & Hnil & Htr).
    exists w'. split_and!; [|done|].
    + cbn [dict_keys fmap list_fmap fst for_each]. unfold mbind, M_bind.
      rewrite (stopAlgo_present k a) by (rewrite <- Hd; simpl; by rewrite decide_True).
      exact Hrun.
    + rewrite Htr. destruct w as [e f fw t]; simpl. by rewrite <- app_assoc.
Qed.

(** ** Dispatcher *)

Lemma processTickEvent_known (tick : VtTickData) (s : gset Algo) (w : World) :
  symbolAlgoDict (engine w) !! t_vtSymbol tick = Some s →
  processTickEvent tick w
  = (Returned (),
     with_trace (λ t, t ++ ((λ a, AlgoUpdateTick a tick) <$> elements s)) w).
Proof.
  intros Hs. unfold processTickEvent, mbind, M_bind, get_self. rewrite Hs.
  case_bool_decide as He.
  - apply for_each_emit.
  - subst s. rewrite elements_empty.
    unfold mret, M_ret. simpl. by rewrite with_trace_nil.
Qed.


Lemma processOrderEvent_owned (order : VtOrderData) (algo : Algo) (w : World) :
  orderAlgoDict (engine w) !! o_vtOrderID order = Some algo →
  processOrderEvent order w
  = (Returned (), with_trace (λ t, t ++ [AlgoUpdateOrder algo order]) w).
Proof. intros Ho. unfold processOrderEvent. unfold_m. by rewrite Ho. Qed.

Lemma processOrderEvent_unowned (order : VtOrderData) (w : World) :
  orderAlgoDict (engine w) !! o_vtOrderID order = None →
  processOrderEvent order w = (Returned (), w).
Proof. intros Ho. unfold processOrderEvent. unfold_m. by rewrite Ho. Qed.

Lemma processTradeEvent_owned (trade : VtTradeData) (algo : Algo) (w : World) :
  orderAlgoDict (engine w) !! tr_vtOrderID trade = Some algo →
  processTradeEvent trade w
  = (Returned (), with_trace (λ t, t ++ [AlgoUpdateTrade algo trade]) w).
Proof. intros Ho. unfold processTradeEvent. unfold_m. by rewrite Ho. Qed.

Lemma processTradeEvent_unowned (trade : VtTradeData) (w : World) :
  orderAlgoDict (engine w) !! tr_vtOrderID trade = None →
  processTradeEvent trade w = (Returned (), w).
Proof. intros Ho. unfold processTradeEvent. unfold_m. by rewrite Ho. Qed.

(** ** Subscription manager *)
Section Subscribe.
Variable mainEngine : MainEngine.

Lemma subscribe_new (algo : Algo) (vtSymbol : string)
    (contract : VtContractData) (w : World) :
  me_getContract mainEngine vtSymbol = Some contract →
  symbolAlgoDict (engine w) !! vtSymbol = None →
  subscribe mainEngine algo vtSymbol w
  = (Returned (), subscribed_new algo vtSymbol contract w).
Proof.
  intros Hc Hs. unfold subscribe. rewrite Hc. unfold_m. rewrite Hs.
  destruct w as [e f fw t]. unfold subscribed_new, with_trace, with_engine.
  simpl. by rewrite alter_insert_eq, (left_id_L ∅ (∪)).
Qed.

Lemma subscribe_known (algo : Algo) (vtSymbol : string)
    (contract : VtContractData) (s : gset Algo) (w : World) :
  me_getContract mainEngine vtSymbol = Some contract →
  symbolAlgoDict (engine w) !! vtSymbol = Some s →
  subscribe mainEngine algo vtSymbol w
  = (Returned (), subscribed_known algo vtSymbol w)
  ∧ symbolAlgoDict (engine (subscribed_known algo vtSymbol w)) !! vtSymbol
    = Some (s ∪ {[algo]}).
Proof.
  intros Hc Hs. split.
  - unfold subscribe. rewrite Hc. unfold_m. by rewrite Hs.
  - destruct w as [e f fw t]; simpl in *. by rewrite lookup_alter_eq, Hs.
Qed.

(** C3. When the contract of a symbol is known and the symbol has no
    subscription set yet, two different instances subscribing to it make
    one upstream [subscribe] call, in the first call; the second adds its
    instance to the set and calls nothing.  A tick for the symbol is then
    handed to both instances, once each. *)
Theorem subscribe_same_symbol (a b : Algo) (vtSymbol : string)
    (contract : VtContractData) (tick : VtTickData) (w : World) :
  a ≠ b →
  me_getContract mainEngine vtSymbol = Some contract →
  symbolAlgoDict (engine w) !! vtSymbol = None →
  t_vtSymbol tick = vtSymbol →
  let w1 := subscribed_new a vtSymbol contract w in
  let w2 := subscribed_known b vtSymbol w1 in
  subscribe mainEngine a vtSymbol w = (Returned (), w1)
  ∧ trace w1 = trace w ++ [subscribe_call contract]
  ∧ subscribe mainEngine b vtSymbol w1 = (Returned (), w2)
  ∧ trace w2 = trace w1
  ∧ ∃ deliveries,
      processTickEvent tick w2
      = (Returned (), with_trace (λ t, t ++ deliveries) w2)
      ∧ deliveries ≡ₚ [AlgoUpdateTick a tick; AlgoUpdateTick b tick].
Proof.
  intros Hab Hc Hs <- w1 w2.
  assert (H1 : symbolAlgoDict (engine w1) !! t_vtSymbol tick = Some {[a]}).
  { subst w1. destruct w as [e f fw t]; simpl. apply lookup_insert_eq. }
  destruct (subscribe_known b (t_vtSymbol tick) contract {[a]} w1 Hc H1)
    as [Hb H2].
  split_and!.
  - by apply subscribe_new.
  - subst w1. by destruct w.
  - exact Hb.
  - subst w2. by destruct w1.
  - eexists. split; [by apply processTickEvent_known|].
    rewrite elements_union_singleton by set_solver.
    by rewrite elements_singleton.
Qed.

End Subscribe.

Lemma subscribe_same_symbol_witness :
  subscribe Session.mainEngine Session.twap1 "rb1905" Session.fresh
  = (Returned (),
     subscribed_new Session.twap1 "rb1905"
       (mkContract "rb1905" "SHFE" "CTP") Session.fresh)
  ∧ subscribe Session.mainEngine Session.twap2 "rb1905"
      (subscribed_new Session.twap1 "rb1905"
         (mkContract "rb1905" "SHFE" "CTP") Session.fresh)
    = (Returned (),
       subscribed_known Session.twap2 "rb1905"
         (subscribed_new Session.twap1 "rb1905"
            (mkContract "rb1905" "SHFE" "CTP") Session.fresh)).
Proof.
  assert (Hab : Session.twap1 ≠ Session.twap2) by discriminate.
  pose proof (subscribe_same_symbol Session.mainEngine Session.twap1
                Session.twap2 "rb1905" (mkContract "rb1905" "SHFE" "CTP")
                Session.tick Session.fresh Hab eq_refl eq_refl eq_refl) as H.
  exact (conj (proj1 H) (proj1 (proj2 (proj2 H)))).
Defined.

(** ** Order gateway *)
Section SendOrder.
Variable mainEngine : MainEngine.
Variable vtConstant : VtConstant.

Lemma sendOrder_known (algo : Algo) (vtSymbol direction : string)
    (price volume : Z) (priceType offset : option string)
    (contract : VtContractData) (w : World) :
  me_getContract mainEngine vtSymbol = Some contract →
  let req := order_req vtConstant contract vtSymbol direction price volume
               priceType offset in
  let gw := c_gatewayName contract in
  sendOrder mainEngine vtConstant algo vtSymbol direction price volume
    priceType offset w
  = (Returned (me_sendOrder mainEngine req gw (trace w)),
     order_sent mainEngine algo req gw w).
Proof.
  intros Hc req gw. unfold sendOrder. rewrite Hc. unfold_m.
  rewrite bool_decide_eq_false_2 by done. reflexivity.
Qed.

(** When the contract is not found, [sendOrder] logs the failure and then
    raises [AttributeError] on [contract.symbol]; nothing is submitted. *)
Lemma sendOrder_unknown (algo : Algo) (vtSymbol direction : string)
    (price volume : Z) (priceType offset : option string) (w : World) :
  me_getContract mainEngine vtSymbol = None →
  sendOrder mainEngine vtConstant algo vtSymbol direction price volume
    priceType offset w
  = (Raised (AttributeError "'NoneType' object has no attribute 'symbol'"),
     with_trace
       (λ t, t ++ [log_event (LogFmt "%s委托下单失败，找不到合约：%s"
                                [VStr (algoName algo); VStr vtSymbol])]) w).
Proof.
  intros Hc. unfold sendOrder, writeLog. rewrite Hc. unfold_m.
  rewrite bool_decide_eq_true_2 by done. reflexivity.
Qed.

(** C4. An order sent for a known contract is recorded in [orderAlgoDict]
    under the id that the main engine returned, with the sending instance
    as its owner, by the time [sendOrder] returns.  Whenever an id has an
    owner, an order or trade event with that id makes one call, to the
    owner's [updateOrder] or [updateTrade]; an event whose id has no owner
    makes no call and raises nothing. *)
Theorem sendOrder_owner (algo : Algo) (vtSymbol direction : string)
    (price volume : Z) (priceType offset : option string)
    (contract : VtContractData) (w : World) :
  me_getContract mainEngine vtSymbol = Some contract →
  let req := order_req vtConstant contract vtSymbol direction price volume
               priceType offset in
  let gw := c_gatewayName contract in
  let vtOrderID := me_sendOrder mainEngine req gw (trace w) in
  let w' := order_sent mainEngine algo req gw w in
  sendOrder mainEngine vtConstant algo vtSymbol direction price volume
    priceType offset w = (Returned vtOrderID, w')
  ∧ trace w' = trace w ++ [MainSendOrder req gw]
  ∧ orderAlgoDict (engine w') !! vtOrderID = Some algo
  ∧ (∀ w'' owner order,
       orderAlgoDict (engine w'') !! o_vtOrderID order = Some owner →
       processOrderEvent order w''
       = (Returned (), with_trace (λ t, t ++ [AlgoUpdateOrder owner order]) w''))
  ∧ (∀ w'' owner trade,
       orderAlgoDict (engine w'') !! tr_vtOrderID trade = Some owner →
       processTradeEvent trade w''
       = (Returned (), with_trace (λ t, t ++ [AlgoUpdateTrade owner trade]) w''))
  ∧ (∀ w'' order,
       orderAlgoDict (engine w'') !! o_vtOrderID order = None →
       processOrderEvent order w'' = (Returned (), w''))
  ∧ (∀ w'' trade,
       orderAlgoDict (engine w'') !! tr_vtOrderID trade = None →
       processTradeEvent trade w'' = (Returned (), w'')).
Proof.
  intros Hc req gw vtOrderID w'. split_and!.
  - by apply sendOrder_known.
  - subst w'. by destruct w.
  - subst w' vtOrderID. destruct w as [e f fw t]; simpl. apply lookup_insert_eq.
  - intros. by apply processOrderEvent_owned.
  - intros. by apply processTradeEvent_owned.
  - intros. by apply processOrderEvent_unowned.
  - intros. by apply processTradeEvent_unowned.
Qed.

End SendOrder.

Lemma sendOrder_owner_witness :
  let req := order_req Session.vtConstant (mkContract "rb1905" "SHFE" "CTP")
               "rb1905" "多" 3500 10 None None in
  let w' := order_sent Session.mainEngine Session.twap1 req "CTP" Session.fresh in
  sendOrder Session.mainEngine Session.vtConstant Session.twap1 "rb1905" "多"
    3500 10 None None Session.fresh = (Returned "CTP.1", w')
  ∧ processTradeEvent Session.trade1 w'
    = (Returned (),
       with_trace (λ t, t ++ [AlgoUpdateTrade Session.twap1 Session.trade1]) w').
Proof.
  pose proof (sendOrder_owner Session.mainEngine Session.vtConstant
                Session.twap1 "rb1905" "多" 3500 10 None None
                (mkContract "rb1905" "SHFE" "CTP") Session.fresh eq_refl) as H.
  split.
  - exact (proj1 H).
  - exact (proj1 (proj2 (proj2 (proj2 (proj2 H)))) _ Session.twap1
             Session.trade1 (proj1 (proj2 (proj2 H)))).
Defined.

(** C5, at a symbol with no contract: [sendOrder] puts the log event,
    submits no order, and raises [AttributeError] to its caller. *)
Theorem sendOrder_unknown_contract_raises :
  let r := sendOrder Session.mainEngine Session.vtConstant Session.twap1
             "IF1906" "多" 3800 1 None None Session.fresh in
  r.1 = Raised (AttributeError "'NoneType' object has no attribute 'symbol'")
  ∧ trace r.2
    = [log_event (LogFmt "%s委托下单失败，找不到合约：%s"
                         [VStr "Twap_1"; VStr "IF1906"])]
  ∧ filter is_send_order (trace r.2) = [].
Proof.
  intros r. subst r.
  rewrite (sendOrder_unknown Session.mainEngine Session.vtConstant
             Session.twap1 "IF1906" "多" 3800 1 None None Session.fresh eq_refl).
  split_and!; reflexivity.
Qed.

(** ** Setting store *)

Lemma self_keyed_values (d : pydict value Setting) (s : Setting) :
  dict_wf d → self_keyed d → s ∈ dict_values d →
  ∃ k, dict_get "settingName" s = Some k ∧ dict_get k d = Some s.
Proof.
  intros Hwf Hkeyed Hin. unfold dict_values in Hin.
  apply list_elem_of_fmap in Hin as ([k s'] & -> & Hin). exists k. split.
  - unfold self_keyed in Hkeyed. rewrite Forall_forall in Hkeyed.
    exact (Hkeyed (k, s') Hin).
  - by apply dict_elem_get.
Qed.

(** Loading a setting that the map already holds under its own name
    changes nothing and puts its event. *)
Lemma load_one_kept (s : Setting) (k : value) (w : World) :
  dict_get "settingName" s = Some k →
  dict_get k (settingDict (engine w)) = Some s →
  load_one s w = (Returned (), with_trace (λ t, t ++ [setting_event s]) w).
Proof.
  intros Hname Hheld. unfold load_one, putSettingEvent. unfold_m.
  rewrite Hname. destruct w as [e f fw t]; simpl in *.
  rewrite (dict_set_id s "settingName" k Hname).
  unfold with_engine, with_trace; cbn [engine settingFile fs_writable trace].
  rewrite (dict_set_id (settingDict e) k s Hheld), set_settingDict_id.
  rewrite (dict_set_id (settingDict e) k s Hheld), set_settingDict_id.
  reflexivity.
Qed.

Lemma load_all_kept (l : list Setting) (w : World) :
  (∀ s, s ∈ l → ∃ k, dict_get "settingName" s = Some k
                     ∧ dict_get k (settingDict (engine w)) = Some s) →
  for_each l load_one w
  = (Returned (), with_trace (λ t, t ++ (setting_event <$> l)) w).
Proof.
  revert w. induction l as [|s r IH]; intros w Hall; simpl.
  - by rewrite with_trace_nil.
  - destruct (Hall s) as (k & Hname & Hheld); [apply list_elem_of_here|].
    unfold mbind, M_bind. rewrite (load_one_kept s k w Hname Hheld).
    rewrite IH.
    + by rewrite with_trace_app.
    + intros s' Hs'. destruct w. apply Hall. by apply list_elem_of_further.
Qed.

(** Loading the values of [d2], in order, into a map [d1] that has none of
    their names appends them. *)
Lemma load_all_fresh (d2 d1 : pydict value Setting) (w : World) :
  settingDict (engine w) = d1 →
  dict_wf (d1 ++ d2) → self_keyed d2 →
  for_each (dict_values d2) load_one w
  = (Returned (),
     with_engine (set_settingDict (d1 ++ d2))
       (with_trace (λ t, t ++ (setting_event <$> dict_values d2)) w)).
Proof.
  revert d1 w. induction d2 as [|[k s] r IH]; intros d1 w Hd Hwf Hkeyed.
  - simpl. rewrite app_nil_r, <- Hd. destruct w as [e f fw t]; simpl.
    unfold mret, M_ret, with_engine, with_trace; simpl.
    by rewrite app_nil_r, set_settingDict_id.
  - apply Forall_cons in Hkeyed as [Hname Hr]. simpl in Hname.
    assert (Hfresh : dict_get k d1 = None).
    { apply dict_get_None. unfold dict_wf, dict_keys in Hwf.
      rewrite fmap_app in Hwf. apply NoDup_app in Hwf as (_ & Hdisj & _).
      intros Hin. apply (Hdisj k Hin). csimpl. apply list_elem_of_here. }
    cbn [dict_values fmap list_fmap snd for_each]. unfold mbind at 1, M_bind at 1.
    assert (Hone : load_one s w
                   = (Returned (),
                      with_engine (set_settingDict (d1 ++ [(k, s)]))
                        (with_trace (λ t, t ++ [setting_event s]) w))).
    { unfold load_one, putSettingEvent. unfold_m. rewrite Hname.
      destruct w as [e f fw t]; simpl in *.
      unfold with_engine, with_trace; simpl. rewrite Hd.
      rewrite (dict_set_id s "settingName" k Hname).
      rewrite (dict_set_fresh d1 k s Hfresh).
      rewrite dict_set_id; [done|].
      rewrite <- (dict_set_fresh d1 k s Hfresh). apply dict_get_set_eq. }
    rewrite Hone.
    rewrite (IH (d1 ++ [(k, s)])); [| by destruct w | by rewrite <- app_assoc | done].
    destruct w as [e f fw t]; unfold with_engine, with_trace; simpl.
    by rewrite <- !app_assoc.
Qed.

Lemma saveAlgoSettingToFile_writable (w : World) :
  fs_writable w = true →
  saveAlgoSettingToFile w
  = (Returned (),
     with_settingFile (Some (dict_values (settingDict (engine w)))) w).
Proof. intros Hw. unfold saveAlgoSettingToFile. unfold_m. by rewrite Hw. Qed.

(** C6. With a writable setting file and a setting map whose entries sit
    under their own [settingName], [saveAlgoSettingToFile] followed by
    [loadAlgoSettingFromFile] leaves the map as it was; and an engine that
    starts with an empty map and loads the written file gets the same map. *)
Theorem save_load_roundtrip (w : World) :
  fs_writable w = true →
  dict_wf (settingDict (engine w)) →
  self_keyed (settingDict (engine w)) →
  let w1 := (saveAlgoSettingToFile w).2 in
  let w2 := (loadAlgoSettingFromFile w1).2 in
  (saveAlgoSettingToFile w).1 = Returned ()
  ∧ settingFile w1 = Some (dict_values (settingDict (engine w)))
  ∧ (loadAlgoSettingFromFile w1).1 = Returned ()
  ∧ settingDict (engine w2) = settingDict (engine w)
  ∧ (∀ w0, settingDict (engine w0) = [] → settingFile w0 = settingFile w1 →
       (loadAlgoSettingFromFile w0).1 = Returned ()
       ∧ settingDict (engine (loadAlgoSettingFromFile w0).2)
         = settingDict (engine w)).
Proof.
  intros Hw Hwf Hkeyed. rewrite (saveAlgoSettingToFile_writable w Hw). simpl.
  assert (Hload : loadAlgoSettingFromFile
                    (with_settingFile (Some (dict_values (settingDict (engine w)))) w)
                  = (Returned (),
                     with_trace
                       (λ t, t ++ ((setting_event <$> dict_values (settingDict (engine w)))
                                   ++ [log_event (LogText "加载算法配置成功")]))
                       (with_settingFile (Some (dict_values (settingDict (engine w)))) w))).
  { unfold loadAlgoSettingFromFile, writeLog, try_except, mbind, M_bind, get_world.
    cbn [settingFile with_settingFile]. rewrite load_all_kept.
    - unfold emit. by rewrite with_trace_app.
    - intros s Hs. destruct w. by apply self_keyed_values. }
  rewrite Hload. split_and!; try done.
  intros w0 Hempty Hfile.
  unfold loadAlgoSettingFromFile, writeLog, try_except, mbind, M_bind, get_world.
  rewrite Hfile.
  rewrite (load_all_fresh (settingDict (engine w)) [] w0 Hempty Hwf Hkeyed).
  unfold emit. split; [done|]. by destruct w0.
Qed.

Lemma save_load_roundtrip_witness :
  settingDict
    (engine (loadAlgoSettingFromFile
               (saveAlgoSettingToFile Session.two_settings).2).2)
  = settingDict (engine Session.two_settings).
Proof.
  assert (Hwf : dict_wf (settingDict (engine Session.two_settings))).
  { unfold dict_wf. apply (bool_decide_unpack _). vm_compute. exact I. }
  assert (Hkeyed : self_keyed (settingDict (engine Session.two_settings))).
  { unfold self_keyed. apply (bool_decide_unpack _). vm_compute. exact I. }
  exact (proj1 (proj2 (proj2 (proj2
           (save_load_roundtrip Session.two_settings eq_refl Hwf Hkeyed))))).
Defined.

(** [putSettingEvent] on a dictionary that the setting map does not hold:
    the name goes into it and the event is put. *)
Lemma putSettingEvent_fresh (settingName : value) (d : Setting) (w : World) :
  putSettingEvent settingName d None w
  = (Returned (),
     with_trace
       (λ t, t ++ [setting_event (dict_set "settingName" settingName d)]) w).
Proof. unfold putSettingEvent. unfold_m. reflexivity. Qed.

Lemma saveAlgoSettingToFile_refused (w : World) :
  fs_writable w = false →
  saveAlgoSettingToFile w
  = (Returned (),
     with_trace
       (λ t, t ++ [log_event (LogExc "保存算法配置异常:{},{}" (IOError "open"));
                   MainWriteError (LogExc "保存算法配置异常:{},{}" (IOError "open"))])
       w).
Proof.
  intros Hw. unfold saveAlgoSettingToFile, writeError. unfold_m. rewrite Hw.
  simpl. by rewrite with_trace_app.
Qed.

(** C7. Deleting a setting whose name is in the setting map takes the entry
    out of the map and out of the active backend (the file is rewritten
    with the remaining settings, or [dbDelete] is called with the name),
    and the last event put is an [EVENT_ALGO_SETTING] event, the kind also
    used for saved settings, whose data is the empty dictionary with only
    the [settingName] stored into it. *)
Theorem deleteAlgoSetting_present (algoSetting : Setting)
    (settingName : value) (held : Setting) (w : World) :
  dict_get "settingName" algoSetting = Some settingName →
  dict_get settingName (settingDict (engine w)) = Some held →
  dict_wf (settingDict (engine w)) →
  let remaining := dict_del settingName (settingDict (engine w)) in
  let w' := (deleteAlgoSetting algoSetting w).2 in
  (deleteAlgoSetting algoSetting w).1 = Returned ()
  ∧ settingDict (engine w') = remaining
  ∧ dict_get settingName (settingDict (engine w')) = None
  ∧ (use_mongodb (engine w) = false → fs_writable w = true →
       settingFile w' = Some (dict_values remaining)
       ∧ trace w' = trace w ++ delete_calls false settingName)
  ∧ (use_mongodb (engine w) = true →
       settingFile w' = settingFile w
       ∧ trace w' = trace w ++ delete_calls true settingName)
  ∧ last (trace w')
    = Some (EventPut (mkEvent EVENT_ALGO_SETTING
                        (DataDict [("settingName", settingName)]))).
Proof.
  intros Hname Hheld Hwf remaining w'.
  assert (Hgone : dict_get settingName remaining = None)
    by by apply dict_get_del_eq.
  subst w'.
  unfold deleteAlgoSetting, saveAlgoSettingToFile, writeError, putSettingEvent.
  unfold_m. rewrite Hname. destruct w as [e f fw t]. simpl in *.
  rewrite Hheld. simpl.
  destruct (use_mongodb e) eqn:Hmongo; [|destruct fw]; simpl;
    rewrite ?last_snoc; split_and!; try done.
  intros _. split; [done|]. unfold delete_calls. by rewrite <- app_assoc.
Qed.

Lemma deleteAlgoSetting_present_witness :
  let w' := (deleteAlgoSetting Session.twapSetting Session.two_settings).2 in
  settingDict (engine w') = [(VStr "D1", Session.dmaSetting)]
  ∧ settingFile w' = Some [Session.dmaSetting]
  ∧ trace w' = [setting_event [("settingName", VStr "T1")]].
Proof.
  assert (Hwf : dict_wf (settingDict (engine Session.two_settings))).
  { unfold dict_wf. apply (bool_decide_unpack _). vm_compute. exact I. }
  pose proof (deleteAlgoSetting_present Session.twapSetting (VStr "T1")
                Session.twapSetting Session.two_settings eq_refl eq_refl Hwf)
    as H.
  split_and!.
  - exact (proj1 (proj2 H)).
  - exact (proj1 (proj1 (proj2 (proj2 (proj2 H))) eq_refl eq_refl)).
  - exact (proj2 (proj1 (proj2 (proj2 (proj2 H))) eq_refl eq_refl)).
Defined.

(** C10. Deleting a setting whose name is not in the setting map raises
    [KeyError] at [del self.settingDict[settingName]]: the map, the file,
    and the calls made so far are as before.  [stopAlgo] on a name that is
    not active returns instead, also without a change. *)
Theorem deleteAlgoSetting_absent (algoSetting : Setting)
    (settingName : value) (w : World) :
  dict_get "settingName" algoSetting = Some settingName →
  dict_get settingName (settingDict (engine w)) = None →
  deleteAlgoSetting algoSetting w = (Raised (KeyError settingName), w)
  ∧ (∀ algoName, dict_get algoName (algoDict (engine w)) = None →
       stopAlgo algoName w = (Returned (), w)).
Proof.
  intros Hname Habsent. split.
  - unfold deleteAlgoSetting. unfold_m. rewrite Hname. simpl. by rewrite Habsent.
  - intros algoName. apply stopAlgo_absent.
Qed.

Lemma deleteAlgoSetting_absent_witness :
  deleteAlgoSetting Session.twapSetting Session.fresh
  = (Raised (KeyError (VStr "T1")), Session.fresh)
  ∧ stopAlgo "Twap_1" Session.fresh = (Returned (), Session.fresh).
Proof.
  pose proof (deleteAlgoSetting_absent Session.twapSetting (VStr "T1")
                Session.fresh eq_refl eq_refl) as H.
  exact (conj (proj1 H) (proj2 H "Twap_1" eq_refl)).
Defined.

(** ** Frames: what a method leaves as it is *)
Section Keeps.
Context (R : relation World) `{!PreOrder R}.

Lemma keeps_ret {A} (a : A) : keeps R (mret a).
Proof. intros w. reflexivity. Qed.

Lemma keeps_raise {A} (e : PyExc) : keeps R (@raise A e).
Proof. intros w. reflexivity. Qed.

Lemma keeps_get_self : keeps R get_self.
Proof. intros w. reflexivity. Qed.

Lemma keeps_get_trace : keeps R get_trace.
Proof. intros w. reflexivity. Qed.

Lemma keeps_get_world : keeps R get_world.
Proof. intros w. reflexivity. Qed.

Lemma keeps_bind {A B} (m : M A) (f : A → M B) :
  keeps R m → (∀ a, keeps R (f a)) → keeps R (m ≫= f).
Proof.
  intros Hm Hf w. unfold mbind, M_bind. specialize (Hm w).
  destruct (m w) as [[a|e] w1]; simpl in *; [|done].
  by etrans; [|apply Hf].
Qed.

Lemma keeps_try_except {A} (body : M A) (handler : PyExc → M A) :
  keeps R body → (∀ ex, keeps R (handler ex)) → keeps R (try_except body handler).
Proof.
  intros Hm Hh w. unfold try_except. specialize (Hm w).
  destruct (body w) as [[a|e] w1]; simpl in *; [done|].
  by etrans; [|apply Hh].
Qed.

Lemma keeps_for_each {A} (l : list A) (body : A → M unit) :
  (∀ x, keeps R (body x)) → keeps R (for_each l body).
Proof.
  intros Hb. induction l as [|x r IH]; simpl.
  - apply keeps_ret.
  - apply keeps_bind; auto.
Qed.

Lemma keeps_for_keys_view {V} (dict_of : AlgoEngine → pydict string V)
    (di_used remaining : nat) (body : string → M unit) :
  (∀ k, keeps R (body k)) → keeps R (for_keys_view dict_of di_used remaining body).
Proof.
  intros Hb. induction remaining as [|r IH]; simpl.
  - apply keeps_bind; [apply keeps_get_self|]. intros self.
    case_decide; [apply keeps_ret | apply keeps_raise].
  - apply keeps_bind; [apply keeps_get_self|]. intros self.
    case_decide; [|apply keeps_raise].
    destruct (dict_keys (dict_of self) !! (di_used - S r)); [|apply keeps_ret].
    apply keeps_bind; auto.
Qed.

Lemma keeps_getitem {V} (d : pydict string V) (k : string) : keeps R (getitem d k).
Proof.
  unfold getitem. destruct (dict_get k d); [apply keeps_ret | apply keeps_raise].
Qed.

End Keeps.

(** Take a method apart along its binds, branches and loops; [prim] deals
    with the calls and stores it is made of. *)
Ltac keeps_step prim :=
  lazymatch goal with
  | |- keeps _ (mbind _ _) => apply keeps_bind; [tc_solve | | intros ?]
  | |- keeps _ (try_except _ _) => apply keeps_try_except; [tc_solve | | intros ?]
  | |- keeps _ (for_each _ _) => apply keeps_for_each; [tc_solve | intros ?]
  | |- keeps _ (for_keys_view _ _ _ _) =>
      apply keeps_for_keys_view; [tc_solve | intros ?]
  | |- keeps _ (mret _) => apply keeps_ret; tc_solve
  | |- keeps _ (raise _) => apply keeps_raise; tc_solve
  | |- keeps _ get_self => apply keeps_get_self; tc_solve
  | |- keeps _ get_trace => apply keeps_get_trace; tc_solve
  | |- keeps _ get_world => apply keeps_get_world; tc_solve
  | |- keeps _ (getitem _ _) => apply keeps_getitem; tc_solve
  | |- keeps _ (match ?x with _ => _ end) => destruct x
  | |- keeps _ (let _ := _ in _) => cbv zeta
  | |- keeps _ _ => prim
  end.

(** The methods, unfolded to their steps. *)
Ltac unfold_methods :=
  unfold processTickEvent, processOrderEvent, processTradeEvent,
    processTimerEvent, addAlgo, stopAll, for_keys, stopAlgo, subscribe,
    sendOrder, cancelOrder, getTick, getContract, putVarEvent, putParamEvent,
    saveAlgoSetting, loadAlgoSetting, loadAlgoSettingFromFile, load_one,
    deleteAlgoSetting, saveAlgoSettingToFile, putSettingEvent, startRpc, stop,
    writeError, createLogger, writeLog.

Ltac unfold_stores :=
  unfold modify_algoDict, modify_orderAlgoDict, modify_symbolAlgoDict,
    modify_settingDict, modify_historyDict, modify_strategy_loggers.

(** ** Control server *)

Lemma rpc_starts_snoc (t : list Effect) (e : Effect) :
  rpc_starts (t ++ [e]) = rpc_starts t + (if decide (e = RpcStart) then 1 else 0).
Proof.
  unfold rpc_starts. rewrite filter_app, length_app. f_equal.
  rewrite filter_cons, filter_nil. by case_decide.
Qed.

#[local] Instance same_rpc_preorder : PreOrder same_rpc.
Proof.
  split.
  - by intros w.
  - intros a b c [H1 H2] [H3 H4]. split; congruence.
Qed.

Lemma same_rpc_emit (e : Effect) : e ≠ RpcStart → keeps same_rpc (emit e).
Proof.
  intros Hne [en f fw t]. split; [done|]. simpl.
  rewrite rpc_starts_snoc, decide_False by done. lia.
Qed.

Lemma same_rpc_update_self (f : AlgoEngine → AlgoEngine) :
  (∀ e, rpcServer (f e) = rpcServer e) → keeps same_rpc (update_self f).
Proof. intros Hf [en fl fw t]. split; [apply Hf | done]. Qed.

Lemma same_rpc_write_setting_file (l : list Setting) :
  keeps same_rpc (write_setting_file l).
Proof. by intros [e f fw t]. Qed.

Ltac same_rpc_prim :=
  unfold_stores;
  lazymatch goal with
  | |- keeps _ (emit _) => apply same_rpc_emit; discriminate
  | |- keeps _ (update_self _) => apply same_rpc_update_self; intros ?; reflexivity
  | |- keeps _ (write_setting_file _) => apply same_rpc_write_setting_file
  end.

Section Lifetime.
Variable mainEngine : MainEngine.
Variable vtConstant : VtConstant.
Variable ALGO_DICT : gmap value AlgoClass.

(** Every method but [startRpc] leaves the control server alone. *)
Lemma same_rpc_call (c : Call) (w : World) :
  (∀ repPort pubPort, c ≠ CStartRpc repPort pubPort) →
  same_rpc w (call mainEngine vtConstant ALGO_DICT c w).
Proof.
  intros Hc. destruct c; cbn [call];
    lazymatch goal with
    | |- context [startRpc ?r ?p] => by destruct (Hc r p)
    | |- same_rpc w (?m w).2 => revert w; change (keeps same_rpc m)
    end;
    unfold_methods; repeat keeps_step same_rpc_prim.
Qed.

Lemma startRpc_first (repPort pubPort : value) (w : World) :
  rpcServer (engine w) = None →
  startRpc repPort pubPort w = (Returned (), rpc_started repPort pubPort w).
Proof.
  intros Hr. unfold startRpc, writeLog. unfold_m. rewrite Hr.
  destruct w as [e f fw t]. unfold rpc_started, with_trace, with_engine. simpl.
  by rewrite <- !app_assoc.
Qed.

Lemma startRpc_again (repPort pubPort : value) (srv : AlgoRpcServer) (w : World) :
  rpcServer (engine w) = Some srv →
  startRpc repPort pubPort w = (Returned (), w).
Proof. intros Hr. unfold startRpc. unfold_m. by rewrite Hr. Qed.

Lemma rpc_started_inv (repPort pubPort : value) (w : World) :
  rpc_starts (trace w) = 0 →
  rpc_inv (rpc_started repPort pubPort w).
Proof.
  intros H0. destruct w as [e f fw t]. unfold rpc_inv, rpc_started. simpl in *.
  unfold rpc_starts in *. rewrite filter_app, length_app, H0. reflexivity.
Qed.

Lemma call_rpc_inv (c : Call) (w : World) :
  rpc_inv w → rpc_inv (call mainEngine vtConstant ALGO_DICT c w).
Proof.
  intros Hinv.
  assert (Hquiet : (∀ r p, c ≠ CStartRpc r p) →
                   rpc_inv (call mainEngine vtConstant ALGO_DICT c w)).
  { intros Hne. destruct (same_rpc_call c w Hne) as [Hr Ht].
    unfold rpc_inv. by rewrite Hr, Ht. }
  destruct c as [| | | | | | | | | | | | | | | | | | | | |r p|];
    try (apply Hquiet; discriminate).
  cbn [call]. unfold rpc_inv in Hinv.
  destruct (rpcServer (engine w)) as [srv|] eqn:Hr.
  - rewrite (startRpc_again r p srv w Hr). cbn [snd]. unfold rpc_inv.
    by rewrite Hr.
  - rewrite (startRpc_first r p w Hr). by apply rpc_started_inv.
Qed.

Lemma run_rpc_inv (cs : list Call) (w : World) :
  rpc_inv w → rpc_inv (run mainEngine vtConstant ALGO_DICT cs w).
Proof.
  revert w. induction cs as [|c cs IH]; intros w Hinv; [done|].
  apply IH. by apply call_rpc_inv.
Qed.

(** C9. In every state that the engine reaches from [__init__] by calls of
    its methods, at most one control server has been started.  In such a
    state [startRpc] creates and starts the server if none exists, which
    is the first start; if one exists, it returns without a call and
    without a change. *)
Theorem startRpc_idempotent (use_mongodb : bool)
    (file : option (list Setting)) (writable : bool) (cs : list Call)
    (repPort pubPort : value) :
  let w := run mainEngine vtConstant ALGO_DICT cs
             (init_world use_mongodb file writable) in
  (rpc_starts (trace w) ≤ 1)%nat
  ∧ match rpcServer (engine w) with
    | None =>
        startRpc repPort pubPort w
        = (Returned (), rpc_started repPort pubPort w)
        ∧ rpc_starts (trace w) = 0
        ∧ rpc_starts (trace (rpc_started repPort pubPort w)) = 1
    | Some _ =>
        startRpc repPort pubPort w = (Returned (), w)
        ∧ rpc_starts (trace w) = 1
    end.
Proof.
  intros w.
  assert (Hinv : rpc_inv w) by (by apply run_rpc_inv).
  unfold rpc_inv in Hinv.
  destruct (rpcServer (engine w)) as [srv|] eqn:Hr.
  - split; [lia|]. split; [by eapply startRpc_again | done].
  - split; [lia|]. split_and!; [by apply startRpc_first | done |].
    pose proof (rpc_started_inv repPort pubPort w Hinv) as H1.
    unfold rpc_inv in H1. by destruct w.
Qed.

End Lifetime.

(** ** Reachable worlds keep the keys of their dictionaries distinct *)

#[local] Instance stays_wf_preorder : PreOrder stays_wf.
Proof.
  split.
  - intros w Hw. exact Hw.
  - intros a b c Hab Hbc Ha. apply Hbc, Hab, Ha.
Qed.

Lemma stays_wf_emit (e : Effect) : keeps stays_wf (emit e).
Proof. intros [en f fw t] Hw. exact Hw. Qed.

Lemma stays_wf_write_setting_file (l : list Setting) :
  keeps stays_wf (write_setting_file l).
Proof. intros [e f fw t] Hw. exact Hw. Qed.

Lemma stays_wf_update_self (f : AlgoEngine → AlgoEngine) :
  (∀ e, dict_wf (algoDict e) → dict_wf (algoDict (f e))) →
  (∀ e, dict_wf (settingDict e) → dict_wf (settingDict (f e))) →
  keeps stays_wf (update_self f).
Proof. intros Ha Hs [en fl fw t] [H1 H2]. split; simpl; auto. Qed.

Ltac stays_wf_prim :=
  unfold_stores;
  lazymatch goal with
  | |- keeps _ (emit _) => apply stays_wf_emit
  | |- keeps _ (write_setting_file _) => apply stays_wf_write_setting_file
  | |- keeps _ (update_self _) =>
      apply stays_wf_update_self; intros ? ?; simpl;
      auto using dict_set_wf, dict_del_wf
  end.

Section Reachable.
Variable mainEngine : MainEngine.
Variable vtConstant : VtConstant.
Variable ALGO_DICT : gmap value AlgoClass.

Lemma stays_wf_call (c : Call) (w : World) :
  stays_wf w (call mainEngine vtConstant ALGO_DICT c w).
Proof.
  destruct c; cbn [call];
    lazymatch goal with
    | |- stays_wf w (?m w).2 => revert w; change (keeps stays_wf m)
    end;
    unfold_methods; repeat keeps_step stays_wf_prim.
Qed.

Lemma run_inv (I : World → Prop) (cs : list Call) (w : World) :
  (∀ c w, I w → I (call mainEngine vtConstant ALGO_DICT c w)) →
  I w → I (run mainEngine vtConstant ALGO_DICT cs w).
Proof.
  intros Hstep. revert w. induction cs as [|c cs IH]; intros w Hw; [done|].
  apply IH. by apply Hstep.
Qed.

(** Every world the engine reaches from [__init__] has dictionaries with
    distinct keys ([dict_wf]), which the theorems on [stopAlgo], on the
    setting file and on [deleteAlgoSetting] assume. *)
Lemma reachable_wf (use_mongodb : bool) (file : option (list Setting))
    (writable : bool) (cs : list Call) :
  wf_world (run mainEngine vtConstant ALGO_DICT cs
              (init_world use_mongodb file writable)).
Proof.
  apply run_inv.
  - intros c w. apply stays_wf_call.
  - split; apply NoDup_nil_2.
Qed.

End Reachable.

(** ** Subscriptions: one upstream call per symbol *)

Lemma subscribe_calls_snoc (t : list Effect) (e : Effect) :
  subscribe_calls (t ++ [e]) = subscribe_calls t + (if is_subscribe e then 1 else 0).
Proof.
  unfold subscribe_calls. rewrite filter_app, length_app. f_equal.
  rewrite filter_cons, filter_nil. by destruct (is_subscribe e).
Qed.

#[local] Instance same_subscriptions_preorder : PreOrder same_subscriptions.
Proof.
  split.
  - by intros w.
  - intros a b c [H1 H2] [H3 H4]. split; congruence.
Qed.

Lemma same_subscriptions_emit (e : Effect) :
  is_subscribe e = false → keeps same_subscriptions (emit e).
Proof.
  intros He [en f fw t]. split; [done|]. simpl.
  rewrite subscribe_calls_snoc, He. lia.
Qed.

Lemma same_subscriptions_update_self (f : AlgoEngine → AlgoEngine) :
  (∀ e, symbolAlgoDict (f e) = symbolAlgoDict e) →
  keeps same_subscriptions (update_self f).
Proof. intros Hf [en fl fw t]. split; [apply Hf | done]. Qed.

Lemma same_subscriptions_write_setting_file (l : list Setting) :
  keeps same_subscriptions (write_setting_file l).
Proof. by intros [e f fw t]. Qed.

Ltac same_subscriptions_prim :=
  unfold_stores;
  lazymatch goal with
  | |- keeps _ (emit _) => apply same_subscriptions_emit; reflexivity
  | |- keeps _ (update_self _) =>
      apply same_subscriptions_update_self; intros ?; reflexivity
  | |- keeps _ (write_setting_file _) => apply same_subscriptions_write_setting_file
  end.

Section Subscriptions.
Variable mainEngine : MainEngine.
Variable vtConstant : VtConstant.
Variable ALGO_DICT : gmap value AlgoClass.

(** Every method but [subscribe] leaves the subscriptions alone. *)
Lemma same_subscriptions_call (c : Call) (w : World) :
  (∀ algo vtSymbol, c ≠ CSubscribe algo vtSymbol) →
  same_subscriptions w (call mainEngine vtConstant ALGO_DICT c w).
Proof.
  intros Hc. destruct c; cbn [call];
    lazymatch goal with
    | |- context [subscribe _ ?a ?s] => by destruct (Hc a s)
    | |- same_subscriptions w (?m w).2 =>
        revert w; change (keeps same_subscriptions m)
    end;
    unfold_methods; repeat keeps_step same_subscriptions_prim.
Qed.

Lemma subscribe_unknown (algo : Algo) (vtSymbol : string) (w : World) :
  me_getContract mainEngine vtSymbol = None →
  subscribe mainEngine algo vtSymbol w
  = (Returned (),
     with_trace
       (λ t, t ++ [log_event (LogFmt "%s订阅行情失败，找不到合约%s"
                                [VStr (algoName algo); VStr vtSymbol])]) w).
Proof. intros Hc. unfold subscribe, writeLog. by rewrite Hc. Qed.

Lemma subscribed_known_fields (algo : Algo) (vtSymbol : string) (w : World) :
  trace (subscribed_known algo vtSymbol w) = trace w
  ∧ symbolAlgoDict (engine (subscribed_known algo vtSymbol w))
    = alter (λ s, s ∪ {[algo]}) vtSymbol (symbolAlgoDict (engine w))
  ∧ orderAlgoDict (engine (subscribed_known algo vtSymbol w))
    = orderAlgoDict (engine w).
Proof. by destruct w. Qed.

Lemma subscribed_new_fields (algo : Algo) (vtSymbol : string)
    (contract : VtContractData) (w : World) :
  trace (subscribed_new algo vtSymbol contract w)
  = trace w ++ [subscribe_call contract]
  ∧ symbolAlgoDict (engine (subscribed_new algo vtSymbol contract w))
    = <[vtSymbol := {[algo]}]> (symbolAlgoDict (engine w))
  ∧ orderAlgoDict (engine (subscribed_new algo vtSymbol contract w))
    = orderAlgoDict (engine w).
Proof. by destruct w. Qed.

Lemma subscribe_subscription_inv (algo : Algo) (vtSymbol : string) (w : World) :
  subscription_inv w →
  subscription_inv (subscribe mainEngine algo vtSymbol w).2.
Proof.
  intros [Hcount Hsets]. unfold subscription_inv.
  destruct (me_getContract mainEngine vtSymbol) as [contract|] eqn:Hc.
  - destruct (symbolAlgoDict (engine w) !! vtSymbol) as [s|] eqn:Hs.
    + destruct (subscribe_known mainEngine algo vtSymbol contract s w Hc Hs)
        as [-> Hnew]. cbn [snd].
      destruct (subscribed_known_fields algo vtSymbol w) as (-> & Hd & _).
      split.
      * rewrite Hd, Hcount, <- !size_dom. by rewrite dom_alter_L.
      * intros sym s'. destruct (decide (sym = vtSymbol)) as [->|Hne].
        -- rewrite Hnew. intros [= <-]. set_solver.
        -- rewrite Hd, lookup_alter_ne by done. apply Hsets.
    + rewrite (subscribe_new mainEngine algo vtSymbol contract w Hc Hs).
      cbn [snd].
      destruct (subscribed_new_fields algo vtSymbol contract w) as (-> & -> & _).
      split.
      * rewrite subscribe_calls_snoc, Hcount. simpl.
        rewrite map_size_insert_None by done. lia.
      * intros sym s'. destruct (decide (sym = vtSymbol)) as [->|Hne].
        -- rewrite lookup_insert_eq. intros [= <-]. set_solver.
        -- rewrite lookup_insert_ne by done. apply Hsets.
  - rewrite (subscribe_unknown algo vtSymbol w Hc).
    destruct w as [e f fw t]; simpl in *. split; [|done].
    rewrite subscribe_calls_snoc, Hcount. simpl. lia.
Qed.

Lemma call_subscription_inv (c : Call) (w : World) :
  subscription_inv w →
  subscription_inv (call mainEngine vtConstant ALGO_DICT c w).
Proof.
  intros Hinv.
  assert (Hsame : (∀ a s, c ≠ CSubscribe a s) →
                  subscription_inv (call mainEngine vtConstant ALGO_DICT c w)).
  { intros Hne. destruct (same_subscriptions_call c w Hne) as [Hd Ht].
    unfold subscription_inv. by rewrite Hd, Ht. }
  destruct c as [| | | | | | |a s| | | | | | | | | | | | | | |];
    try (apply Hsame; discriminate).
  cbn [call]. by apply subscribe_subscription_inv.
Qed.

(** X1. In every state that the engine reaches from [__init__], the main
    engine has been asked to subscribe exactly once per symbol that has a
    subscription set, however many instances subscribed, and no
    subscription set is empty. *)
Theorem subscriptions_once_per_symbol (use_mongodb : bool)
    (file : option (list Setting)) (writable : bool) (cs : list Call) :
  let w := run mainEngine vtConstant ALGO_DICT cs
             (init_world use_mongodb file writable) in
  subscribe_calls (trace w) = size (symbolAlgoDict (engine w))
  ∧ ∀ vtSymbol s, symbolAlgoDict (engine w) !! vtSymbol = Some s → s ≠ ∅.
Proof.
  apply (run_inv mainEngine vtConstant ALGO_DICT subscription_inv).
  - apply call_subscription_inv.
  - split; [done|]. intros sym s. simpl. by rewrite lookup_empty.
Qed.

End Subscriptions.

(** ** Ownership and subscriptions are never taken back *)

#[local] Instance entries_kept_preorder : PreOrder entries_kept.
Proof.
  split.
  - intros w. split; [done|]. intros sym s Hs. by exists s.
  - intros a b c [Ho1 Hs1] [Ho2 Hs2]. split; [by auto|].
    intros sym s Hs.
    destruct (Hs1 sym s Hs) as (s1 & H1 & Hsub1).
    destruct (Hs2 sym s1 H1) as (s2 & H2 & Hsub2).
    exists s2. split; [done | set_solver].
Qed.

Lemma entries_kept_emit (e : Effect) : keeps entries_kept (emit e).
Proof.
  intros [en f fw t]. split; simpl; [done|]. intros sym s Hs. by exists s.
Qed.

Lemma entries_kept_write_setting_file (l : list Setting) :
  keeps entries_kept (write_setting_file l).
Proof.
  intros [e f fw t]. split; simpl; [done|]. intros sym s Hs. by exists s.
Qed.

Lemma entries_kept_update_self (f : AlgoEngine → AlgoEngine) :
  (∀ e vtOrderID, is_Some (orderAlgoDict e !! vtOrderID) →
                  is_Some (orderAlgoDict (f e) !! vtOrderID)) →
  (∀ e vtSymbol s, symbolAlgoDict e !! vtSymbol = Some s →
     ∃ s', symbolAlgoDict (f e) !! vtSymbol = Some s' ∧ s ⊆ s') →
  keeps entries_kept (update_self f).
Proof. intros Ho Hs [en fl fw t]. split; simpl; auto. Qed.

Lemma insert_keeps_owner (m : gmap string Algo) (i j : string) (a : Algo) :
  is_Some (m !! j) → is_Some (<[i := a]> m !! j).
Proof. rewrite lookup_insert_is_Some'. auto. Qed.

Lemma members_kept_refl (m : gmap string (gset Algo)) (i : string) (s : gset Algo) :
  m !! i = Some s → ∃ s', m !! i = Some s' ∧ s ⊆ s'.
Proof. intros Hs. by exists s. Qed.

Lemma add_keeps_members (m : gmap string (gset Algo)) (i j : string)
    (a : Algo) (s : gset Algo) :
  m !! j = Some s →
  ∃ s', alter (λ s, s ∪ {[a]}) i m !! j = Some s' ∧ s ⊆ s'.
Proof.
  intros Hs. destruct (decide (i = j)) as [->|Hne].
  - exists (s ∪ {[a]}). rewrite lookup_alter_eq, Hs. split; [done | set_solver].
  - exists s. by rewrite lookup_alter_ne.
Qed.

Ltac entries_kept_prim :=
  unfold_stores;
  lazymatch goal with
  | |- keeps _ (emit _) => apply entries_kept_emit
  | |- keeps _ (write_setting_file _) => apply entries_kept_write_setting_file
  | |- keeps _ (update_self _) =>
      apply entries_kept_update_self; intros; simpl;
      eauto using insert_keeps_owner, members_kept_refl, add_keeps_members
  end.

Section Persistence.
Variable mainEngine : MainEngine.
Variable vtConstant : VtConstant.
Variable ALGO_DICT : gmap value AlgoClass.

Lemma subscribe_entries_kept (algo : Algo) (vtSymbol : string) (w : World) :
  entries_kept w (subscribe mainEngine algo vtSymbol w).2.
Proof.
  unfold entries_kept.
  destruct (me_getContract mainEngine vtSymbol) as [contract|] eqn:Hc.
  - destruct (symbolAlgoDict (engine w) !! vtSymbol) as [s|] eqn:Hs.
    + destruct (subscribe_known mainEngine algo vtSymbol contract s w Hc Hs)
        as [-> _]. cbn [snd].
      destruct (subscribed_known_fields algo vtSymbol w) as (_ & -> & ->).
      split; [done|]. intros sym s'. apply add_keeps_members.
    + rewrite (subscribe_new mainEngine algo vtSymbol contract w Hc Hs).
      cbn [snd].
      destruct (subscribed_new_fields algo vtSymbol contract w) as (_ & -> & ->).
      split; [done|]. intros sym s' Hs'. exists s'. split; [|done].
      rewrite lookup_insert_ne; [done|]. intros ->. congruence.
  - rewrite (subscribe_unknown mainEngine algo vtSymbol w Hc).
    destruct w. split; [done|]. intros sym s Hs. by exists s.
Qed.

Lemma entries_kept_call (c : Call) (w : World) :
  entries_kept w (call mainEngine vtConstant ALGO_DICT c w).
Proof.
  destruct c as [| | | | | | |a s| | | | | | | | | | | | | | |]; cbn [call];
    try apply subscribe_entries_kept;
    lazymatch goal with
    | |- entries_kept w (?m w).2 => revert w; change (keeps entries_kept m)
    end;
    unfold_methods; repeat keeps_step entries_kept_prim.
Qed.

(** X2. Whatever methods are called, in whatever order, an order id that
    has an owner keeps having one, and an instance in the subscription set
    of a symbol stays in it: stopping an algorithm, in particular, takes
    back neither. *)
Theorem entries_persist (cs : list Call) (w : World) :
  let w' := run mainEngine vtConstant ALGO_DICT cs w in
  (∀ vtOrderID, is_Some (orderAlgoDict (engine w) !! vtOrderID) →
                is_Some (orderAlgoDict (engine w') !! vtOrderID))
  ∧ (∀ vtSymbol s, symbolAlgoDict (engine w) !! vtSymbol = Some s →
       ∃ s', symbolAlgoDict (engine w') !! vtSymbol = Some s' ∧ s ⊆ s').
Proof.
  apply (run_inv mainEngine vtConstant ALGO_DICT (entries_kept w)).
  - intros c w1 Hw1. etrans; [exact Hw1 | apply entries_kept_call].
  - reflexivity.
Qed.

End Persistence.

(** ** Setting store: loading *)

Lemma dict_set_set {K V} `{EqDecision K} (d : pydict K V) (k : K) (v v' : V) :
  dict_set k v' (dict_set k v d) = dict_set k v' d.
Proof.
  induction d as [|[k0 v0] r IH]; simpl.
  - by rewrite decide_True.
  - destruct (decide (k = k0)) as [->|Hne]; simpl.
    + by rewrite decide_True.
    + rewrite decide_False by done. by rewrite IH.
Qed.

Lemma after_load_nil (w : World) : after_load [] w = w.
Proof.
  destruct w as [e f fw t]. unfold after_load, with_trace, with_engine. simpl.
  by rewrite app_nil_r, set_settingDict_id.
Qed.

Lemma after_load_cons (s : Setting) (r : list Setting) (w : World) :
  after_load (s :: r) w = after_load r (after_load [s] w).
Proof.
  destruct w as [e f fw t]. unfold after_load, with_trace, with_engine. simpl.
  by rewrite <- app_assoc.
Qed.

Lemma after_load_app (l1 l2 : list Setting) (w : World) :
  after_load (l1 ++ l2) w = after_load l2 (after_load l1 w).
Proof.
  revert w. induction l1 as [|s r IH]; intros w; simpl.
  - by rewrite after_load_nil.
  - by rewrite after_load_cons, IH, <- after_load_cons.
Qed.

Lemma load_one_named (s : Setting) (k : value) (w : World) :
  dict_get "settingName" s = Some k →
  load_one s w = (Returned (), after_load [s] w).
Proof.
  intros Hname. unfold load_one, putSettingEvent. unfold_m. rewrite Hname.
  destruct w as [e f fw t]. unfold after_load, with_trace, with_engine. simpl.
  rewrite Hname, (dict_set_id s "settingName" k Hname).
  by rewrite dict_set_set.
Qed.

Lemma load_one_nameless (s : Setting) (w : World) :
  dict_get "settingName" s = None →
  load_one s w = (Raised (KeyError (VStr "settingName")), w).
Proof. intros Hname. unfold load_one. unfold_m. by rewrite Hname. Qed.

Lemma load_all_named (l : list Setting) (w : World) :
  Forall named l → for_each l load_one w = (Returned (), after_load l w).
Proof.
  revert w. induction l as [|s r IH]; intros w Hall; simpl.
  - by rewrite after_load_nil.
  - apply Forall_cons in Hall as [[k Hname] Hr].
    unfold mbind, M_bind. rewrite (load_one_named s k w Hname), IH by done.
    by rewrite <- after_load_cons.
Qed.

Lemma load_stops_at_nameless (l1 l2 : list Setting) (bad : Setting) (w : World) :
  Forall named l1 → dict_get "settingName" bad = None →
  for_each (l1 ++ bad :: l2) load_one w
  = (Raised (KeyError (VStr "settingName")), after_load l1 w).
Proof.
  revert w. induction l1 as [|s r IH]; intros w Hall Hbad; simpl.
  - unfold mbind, M_bind. rewrite (load_one_nameless bad w Hbad).
    by rewrite after_load_nil.
  - apply Forall_cons in Hall as [[k Hname] Hr].
    unfold mbind, M_bind. rewrite (load_one_named s k w Hname), IH by done.
    by rewrite <- after_load_cons.
Qed.

(** What the map holds under [k] after a load: the last loaded entry of
    that name, or else what it held before. *)
Lemma loaded_lookup (l : list Setting) (d : pydict value Setting) (k : value) :
  Forall named l →
  dict_get k (loaded l d)
  = match last (entries_named k l) with
    | Some s => Some s
    | None => dict_get k d
    end.
Proof.
  unfold loaded, entries_named. induction l as [|s l IH] using rev_ind; intros Hall.
  - done.
  - apply Forall_app in Hall as [Hl [[k' Hname] _]%Forall_cons].
    rewrite foldl_app, filter_app. simpl. rewrite Hname.
    rewrite filter_cons, filter_nil, Hname.
    destruct (decide (Some k' = Some k)) as [[= ->]|Hne].
    + by rewrite last_snoc, dict_get_set_eq.
    + rewrite app_nil_r, dict_get_set_ne by congruence. by apply IH.
Qed.

(** X3. Neither [saveAlgoSettingToFile] nor [loadAlgoSettingFromFile] ever
    raises.  A save leaves the engine as it is; if the file cannot be
    opened for writing, the file stays as it was and the failure is
    reported by a log event and to [mainEngine.writeError].  A load without
    a file only puts the log event that says so. *)
Theorem setting_file_errors_swallowed (w : World) :
  (saveAlgoSettingToFile w).1 = Returned ()
  ∧ (loadAlgoSettingFromFile w).1 = Returned ()
  ∧ engine (saveAlgoSettingToFile w).2 = engine w
  ∧ settingFile (saveAlgoSettingToFile w).2
    = (if fs_writable w then Some (dict_values (settingDict (engine w)))
       else settingFile w)
  ∧ trace (saveAlgoSettingToFile w).2
    = trace w ++ (if fs_writable w then []
                  else error_calls "保存算法配置异常:{},{}" (IOError "open"))
  ∧ match settingFile w with
    | None =>
        (loadAlgoSettingFromFile w).2
        = with_trace (λ t, t ++ [log_event (LogText "算法配置文件不存在")]) w
    | Some _ => True
    end.
Proof.
  assert (Hload : (loadAlgoSettingFromFile w).1 = Returned ()).
  { unfold loadAlgoSettingFromFile, writeLog, writeError. unfold_m.
    destruct (settingFile w) as [l|]; [|done].
    by destruct (for_each l load_one w) as [[[]|ex] w1]. }
  destruct (fs_writable w) eqn:Hw.
  - rewrite (saveAlgoSettingToFile_writable w Hw).
    split_and!; try done; destruct w as [e f fw t]; simpl;
      [by rewrite app_nil_r | by destruct f].
  - rewrite (saveAlgoSettingToFile_refused w Hw).
    split_and!; try done; destruct w as [e f fw t]; simpl; by destruct f.
Qed.

(** X4. When the setting file has a nameless entry, the entries before it
    are loaded and announced, the [KeyError] is caught and reported, the
    entries after it are not loaded, and the log event of a successful
    load is put all the same. *)
Theorem load_stops_at_nameless_entry (l1 l2 : list Setting) (bad : Setting)
    (w : World) :
  settingFile w = Some (l1 ++ bad :: l2) →
  Forall named l1 →
  dict_get "settingName" bad = None →
  loadAlgoSettingFromFile w
  = (Returned (),
     with_trace
       (λ t, t ++ error_calls "加载算法配置异常:{},{}" (KeyError (VStr "settingName"))
               ++ [log_event (LogText "加载算法配置成功")])
       (after_load l1 w)).
Proof.
  intros Hfile Hall Hbad.
  unfold loadAlgoSettingFromFile, writeLog, writeError, try_except, mbind,
    M_bind, get_world.
  rewrite Hfile, (load_stops_at_nameless l1 l2 bad w Hall Hbad).
  unfold_m. simpl. destruct (after_load l1 w) as [e f fw t].
  unfold with_trace. simpl. by rewrite <- !app_assoc.
Qed.

Lemma load_stops_at_nameless_entry_witness :
  settingDict (engine (loadAlgoSettingFromFile Desk.file_with_gap).2)
  = [(VStr "T1", Session.twapSetting)].
Proof.
  assert (Hall : Forall named [Session.twapSetting]).
  { apply Forall_cons. split; [by eexists | apply Forall_nil_2]. }
  rewrite (load_stops_at_nameless_entry [Session.twapSetting]
             [Session.dmaSetting] Desk.nameless Desk.file_with_gap
             eq_refl Hall eq_refl).
  reflexivity.
Defined.

(** X5. Loading a file whose entries all have names never clears the
    setting map: afterwards a name holds the last entry of the file with
    that name, and a name that the file does not mention holds what it
    held before the load. *)
Theorem load_merges_into_map (l : list Setting) (w : World) :
  settingFile w = Some l →
  Forall named l →
  loadAlgoSettingFromFile w
  = (Returned (),
     with_trace (λ t, t ++ [log_event (LogText "加载算法配置成功")])
       (after_load l w))
  ∧ ∀ k, dict_get k (settingDict (engine (loadAlgoSettingFromFile w).2))
         = match last (entries_named k l) with
           | Some s => Some s
           | None => dict_get k (settingDict (engine w))
           end.
Proof.
  intros Hfile Hall.
  assert (Hrun : loadAlgoSettingFromFile w
                 = (Returned (),
                    with_trace (λ t, t ++ [log_event (LogText "加载算法配置成功")])
                      (after_load l w))).
  { unfold loadAlgoSettingFromFile, writeLog, try_except, mbind, M_bind,
      get_world.
    by rewrite Hfile, (load_all_named l w Hall). }
  split; [done|]. intros k. rewrite Hrun.
  destruct w as [e f fw t]. simpl. by apply loaded_lookup.
Qed.

Lemma load_merges_into_map_witness :
  dict_get (VStr "T1")
    (settingDict (engine (loadAlgoSettingFromFile Desk.file_with_repeat).2))
  = Some Desk.newTwap.
Proof.
  assert (Hall : Forall named [Session.twapSetting; Session.dmaSetting; Desk.newTwap]).
  { repeat (apply Forall_cons; split; [by eexists|]). apply Forall_nil_2. }
  exact (proj2 (load_merges_into_map _ Desk.file_with_repeat eq_refl Hall)
           (VStr "T1")).
Defined.

(** ** Setting store: the database backend and [saveAlgoSetting] *)
Section Database.
Variable mainEngine : MainEngine.

(** X6. [loadAlgoSetting] on the file backend is [loadAlgoSettingFromFile].
    On the database backend it has no [try]: the documents before the
    first nameless one are loaded and announced, and at a nameless
    document the [KeyError] goes to the caller; without one it returns. *)
Theorem loadAlgoSetting_database (l1 rest : list Setting) (w : World) :
  me_dbQuery mainEngine ALGOTRADING_DB_NAME SETTING_COLLECTION_NAME = l1 ++ rest →
  Forall named l1 →
  (∀ bad, head rest = Some bad → dict_get "settingName" bad = None) →
  loadAlgoSetting mainEngine w
  = if use_mongodb (engine w) then
      (match rest with
       | [] => Returned ()
       | _ :: _ => Raised (KeyError (VStr "settingName"))
       end, after_load l1 w)
    else loadAlgoSettingFromFile w.
Proof.
  intros Hquery Hall Hbad. unfold loadAlgoSetting, mbind, M_bind, get_self.
  destruct (use_mongodb (engine w)); [|done]. cbn [negb]. rewrite Hquery.
  destruct rest as [|bad l2].
  - rewrite app_nil_r. by apply load_all_named.
  - apply load_stops_at_nameless; [done|]. by apply Hbad.
Qed.

End Database.

Lemma loadAlgoSetting_database_witness :
  loadAlgoSetting Desk.mainEngine Desk.fresh_db
  = (Raised (KeyError (VStr "settingName")),
     after_load [Session.twapSetting] Desk.fresh_db).
Proof.
  assert (Hall : Forall named [Session.twapSetting]).
  { apply Forall_cons. split; [by eexists | apply Forall_nil_2]. }
  refine (loadAlgoSetting_database Desk.mainEngine [Session.twapSetting]
            [Desk.nameless; Session.dmaSetting] Desk.fresh_db eq_refl Hall _).
  intros bad [= <-]. reflexivity.
Defined.

Lemma saveAlgoSetting_named (s : Setting) (k : value) (w : World) :
  dict_get "settingName" s = Some k →
  saveAlgoSetting s w = (Returned (), setting_saved k s w).
Proof.
  intros Hname. unfold saveAlgoSetting, putSettingEvent. unfold_m.
  rewrite Hname. destruct w as [e f fw t].
  unfold setting_saved, with_trace, with_engine. simpl.
  rewrite (dict_set_id s "settingName" k Hname), dict_set_set.
  by rewrite <- app_assoc.
Qed.

(** X7. [saveAlgoSetting] puts the setting into the map under its name, so
    that the name then holds it and every other name holds what it held.
    Whatever the backend, it persists by one [dbUpdate] with upsert and
    announces the setting; it never writes the setting file. *)
Theorem saveAlgoSetting_stores (s : Setting) (k : value) (w : World) :
  dict_get "settingName" s = Some k →
  let w' := (saveAlgoSetting s w).2 in
  (saveAlgoSetting s w).1 = Returned ()
  ∧ dict_get k (settingDict (engine w')) = Some s
  ∧ (∀ k', k' ≠ k →
       dict_get k' (settingDict (engine w')) = dict_get k' (settingDict (engine w)))
  ∧ settingFile w' = settingFile w
  ∧ trace w'
    = trace w ++ [MainDbUpdate ALGOTRADING_DB_NAME SETTING_COLLECTION_NAME
                    (DocSetting s) [("settingName", k)] true;
                  setting_event s].
Proof.
  intros Hname. rewrite (saveAlgoSetting_named s k w Hname).
  destruct w as [e f fw t]. simpl. split_and!; try done.
  - apply dict_get_set_eq.
  - intros k' Hne. apply dict_get_set_ne. congruence.
Qed.

Lemma saveAlgoSetting_stores_witness :
  dict_get (VStr "T1")
    (settingDict (engine (saveAlgoSetting Session.twapSetting Session.fresh).2))
  = Some Session.twapSetting
  ∧ settingFile (saveAlgoSetting Session.twapSetting Session.fresh).2 = None.
Proof.
  pose proof (saveAlgoSetting_stores Session.twapSetting (VStr "T1")
                Session.fresh eq_refl) as H.
  exact (conj (proj1 (proj2 H)) (proj1 (proj2 (proj2 (proj2 H))))).
Defined.

(** X8. A setting without a [settingName] makes [saveAlgoSetting] and
    [deleteAlgoSetting] raise [KeyError] before they change the map, call
    a backend or put an event. *)
Theorem nameless_setting_raises (s : Setting) (w : World) :
  dict_get "settingName" s = None →
  saveAlgoSetting s w = (Raised (KeyError (VStr "settingName")), w)
  ∧ deleteAlgoSetting s w = (Raised (KeyError (VStr "settingName")), w).
Proof.
  intros Hname. split.
  - unfold saveAlgoSetting. unfold_m. by rewrite Hname.
  - unfold deleteAlgoSetting. unfold_m. by rewrite Hname.
Qed.

Lemma nameless_setting_raises_witness :
  saveAlgoSetting Desk.nameless Session.two_settings
  = (Raised (KeyError (VStr "settingName")), Session.two_settings).
Proof.
  exact (proj1 (nameless_setting_raises Desk.nameless Session.two_settings eq_refl)).
Defined.

Lemma dict_del_set_fresh {K V} `{EqDecision K} (d : pydict K V) (k : K) (v : V) :
  dict_get k d = None → dict_del k (dict_set k v d) = d.
Proof.
  induction d as [|[k0 v0] r IH]; simpl.
  - by rewrite decide_True.
  - destruct (decide (k = k0)) as [->|Hne]; [done|]. simpl.
    rewrite decide_False by done. intros Hg. by rewrite IH.
Qed.

(** X9. Saving a setting under a name that the map does not hold and then
    deleting it gives the map back as it was, on either backend and
    whether or not the file can be written. *)
Theorem save_then_delete_restores (s : Setting) (k : value) (w : World) :
  dict_get "settingName" s = Some k →
  dict_get k (settingDict (engine w)) = None →
  let w1 := (saveAlgoSetting s w).2 in
  (deleteAlgoSetting s w1).1 = Returned ()
  ∧ settingDict (engine (deleteAlgoSetting s w1).2) = settingDict (engine w).
Proof.
  intros Hname Hnew. rewrite (saveAlgoSetting_named s k w Hname).
  cbn [snd].
  unfold deleteAlgoSetting, saveAlgoSettingToFile, writeError, putSettingEvent.
  unfold_m. rewrite Hname. destruct w as [e f fw t]. simpl in *.
  rewrite dict_get_set_eq. simpl.
  destruct (use_mongodb e); [|destruct fw]; simpl;
    by rewrite (dict_del_set_fresh (settingDict e) k s Hnew).
Qed.

Lemma save_then_delete_restores_witness :
  settingDict
    (engine (deleteAlgoSetting Session.twapSetting
               (saveAlgoSetting Session.twapSetting Session.fresh).2).2)
  = [].
Proof.
  exact (proj2 (save_then_delete_restores Session.twapSetting (VStr "T1")
                  Session.fresh eq_refl eq_refl)).
Defined.

(** ** The setting file is written only on request *)

#[local] Instance same_file_preorder : PreOrder same_file.
Proof.
  split.
  - by intros w.
  - intros a b c Hab Hbc. unfold same_file in *. congruence.
Qed.

Lemma same_file_emit (e : Effect) : keeps same_file (emit e).
Proof. by intros [en f fw t]. Qed.

Lemma same_file_update_self (f : AlgoEngine → AlgoEngine) :
  keeps same_file (update_self f).
Proof. by intros [en fl fw t]. Qed.

Ltac same_file_prim :=
  unfold_stores;
  lazymatch goal with
  | |- keeps _ (emit _) => apply same_file_emit
  | |- keeps _ (update_self _) => apply same_file_update_self
  end.

Section FileFrame.
Variable mainEngine : MainEngine.
Variable vtConstant : VtConstant.
Variable ALGO_DICT : gmap value AlgoClass.

Lemma same_file_call (c : Call) (w : World) :
  writes_file c = false →
  same_file w (call mainEngine vtConstant ALGO_DICT c w).
Proof.
  intros Hc. destruct c; try discriminate Hc; cbn [call];
    lazymatch goal with
    | |- same_file w (?m w).2 => revert w; change (keeps same_file m)
    end;
    unfold_methods; repeat keeps_step same_file_prim.
Qed.

(** X10. The setting file changes only in [saveAlgoSettingToFile] and
    [deleteAlgoSetting]: any sequence of other calls, [saveAlgoSetting]
    and the loads among them, leaves the file as it was. *)
Theorem file_written_only_on_request (cs : list Call) (w : World) :
  Forall (λ c, writes_file c = false) cs →
  settingFile (run mainEngine vtConstant ALGO_DICT cs w) = settingFile w.
Proof.
  revert w. induction cs as [|c cs IH]; intros w Hcs; [done|].
  apply Forall_cons in Hcs as [Hc Hcs]. simpl.
  rewrite (IH _ Hcs). by apply same_file_call.
Qed.

End FileFrame.

Lemma file_written_only_on_request_witness :
  settingFile
    (run Session.mainEngine Session.vtConstant Session.ALGO_DICT
       [CSaveAlgoSetting Session.twapSetting; CLoadAlgoSetting; CStopAll]
       Session.fresh)
  = None.
Proof.
  refine (file_written_only_on_request Session.mainEngine Session.vtConstant
            Session.ALGO_DICT _ Session.fresh _).
  repeat (apply Forall_cons; split; [reflexivity|]). apply Forall_nil_2.
Defined.

(** ** Routing after other calls *)

#[local] Instance same_orders_preorder : PreOrder same_orders.
Proof.
  split.
  - by intros w.
  - intros a b c Hab Hbc. unfold same_orders in *. congruence.
Qed.

Lemma same_orders_emit (e : Effect) : keeps same_orders (emit e).
Proof. by intros [en f fw t]. Qed.

Lemma same_orders_write_setting_file (l : list Setting) :
  keeps same_orders (write_setting_file l).
Proof. by intros [e f fw t]. Qed.

Lemma same_orders_update_self (f : AlgoEngine → AlgoEngine) :
  (∀ e, orderAlgoDict (f e) = orderAlgoDict e) →
  keeps same_orders (update_self f).
Proof. intros Hf [en fl fw t]. apply Hf. Qed.

Ltac same_orders_prim :=
  unfold_stores;
  lazymatch goal with
  | |- keeps _ (emit _) => apply same_orders_emit
  | |- keeps _ (write_setting_file _) => apply same_orders_write_setting_file
  | |- keeps _ (update_self _) =>
      apply same_orders_update_self; intros ?; reflexivity
  end.

Section Routing.
Variable mainEngine : MainEngine.
Variable vtConstant : VtConstant.
Variable ALGO_DICT : gmap value AlgoClass.

Lemma same_orders_call (c : Call) (w : World) :
  sends_order c = false →
  same_orders w (call mainEngine vtConstant ALGO_DICT c w).
Proof.
  intros Hc. destruct c; try discriminate Hc; cbn [call];
    lazymatch goal with
    | |- same_orders w (?m w).2 => revert w; change (keeps same_orders m)
    end;
    unfold_methods; repeat keeps_step same_orders_prim.
Qed.

Lemma same_orders_run (cs : list Call) (w : World) :
  Forall (λ c, sends_order c = false) cs →
  orderAlgoDict (engine (run mainEngine vtConstant ALGO_DICT cs w))
  = orderAlgoDict (engine w).
Proof.
  revert w. induction cs as [|c cs IH]; intros w Hcs; [done|].
  apply Forall_cons in Hcs as [Hc Hcs]. simpl.
  rewrite (IH _ Hcs). by apply same_orders_call.
Qed.

(** X11. After an instance has sent an order, any calls that send no
    further order, such as stopping that very instance or all of them,
    leave it the owner: an order or trade event with the returned id is
    still handed to it, and to it alone. *)
Theorem owner_outlives_stop (algo : Algo) (vtSymbol direction : string)
    (price volume : Z) (priceType offset : option string)
    (contract : VtContractData) (cs : list Call) (w : World) :
  me_getContract mainEngine vtSymbol = Some contract →
  Forall (λ c, sends_order c = false) cs →
  let sent := sendOrder mainEngine vtConstant algo vtSymbol direction price
                volume priceType offset w in
  let w' := run mainEngine vtConstant ALGO_DICT cs sent.2 in
  ∃ vtOrderID,
    sent.1 = Returned vtOrderID
    ∧ orderAlgoDict (engine w') !! vtOrderID = Some algo
    ∧ (∀ order, o_vtOrderID order = vtOrderID →
         processOrderEvent order w'
         = (Returned (), with_trace (λ t, t ++ [AlgoUpdateOrder algo order]) w'))
    ∧ (∀ trade, tr_vtOrderID trade = vtOrderID →
         processTradeEvent trade w'
         = (Returned (), with_trace (λ t, t ++ [AlgoUpdateTrade algo trade]) w')).
Proof.
  intros Hc Hcs sent w'. subst sent w'.
  rewrite (sendOrder_known mainEngine vtConstant algo vtSymbol direction price
             volume priceType offset contract w Hc).
  eexists. split; [reflexivity|].
  assert (Hown : orderAlgoDict
                   (engine (run mainEngine vtConstant ALGO_DICT cs
                              (order_sent mainEngine algo
                                 (order_req vtConstant contract vtSymbol direction
                                    price volume priceType offset)
                                 (c_gatewayName contract) w)))
                 !! me_sendOrder mainEngine
                      (order_req vtConstant contract vtSymbol direction price
                         volume priceType offset)
                      (c_gatewayName contract) (trace w) = Some algo).
  { cbn [snd]. rewrite (same_orders_run cs _ Hcs).
    destruct w as [e f fw t]. simpl. apply lookup_insert_eq. }
  split; [exact Hown|]. split.
  - intros order Hid. apply processOrderEvent_owned. by rewrite Hid.
  - intros trade Hid. apply processTradeEvent_owned. by rewrite Hid.
Qed.

(** X12. Once an instance is in the subscription set of a symbol, whatever
    methods are called afterwards, a tick for the symbol still calls its
    [updateTick]; stopping the algorithm does not end its ticks. *)
Theorem subscriber_keeps_ticks (algo : Algo) (s : gset Algo)
    (tick : VtTickData) (cs : list Call) (w : World) :
  symbolAlgoDict (engine w) !! t_vtSymbol tick = Some s →
  algo ∈ s →
  let w' := run mainEngine vtConstant ALGO_DICT cs w in
  ∃ deliveries,
    processTickEvent tick w'
    = (Returned (), with_trace (λ t, t ++ deliveries) w')
    ∧ AlgoUpdateTick algo tick ∈ deliveries.
Proof.
  intros Hs Hin w'.
  assert (Hkept : entries_kept w w').
  { apply (run_inv mainEngine vtConstant ALGO_DICT (entries_kept w)).
    - intros c w1 Hw1. etrans; [exact Hw1 | apply entries_kept_call].
    - reflexivity. }
  destruct Hkept as [_ Hsets].
  destruct (Hsets _ s Hs) as (s' & Hs' & Hsub).
  eexists. split; [by apply processTickEvent_known|].
  apply (list_elem_of_fmap_2 (λ a, AlgoUpdateTick a tick)).
  apply elem_of_elements. set_solver.
Qed.

End Routing.

Lemma owner_outlives_stop_witness :
  ∃ vtOrderID,
    (sendOrder Session.mainEngine Session.vtConstant Session.twap1 "rb1905"
       "多" 3500 10 None None Session.two_active).1 = Returned vtOrderID
    ∧ orderAlgoDict
        (engine (run Session.mainEngine Session.vtConstant Session.ALGO_DICT
                   [CStopAlgo "Twap_1"; CStopAll]
                   (sendOrder Session.mainEngine Session.vtConstant
                      Session.twap1 "rb1905" "多" 3500 10 None None
                      Session.two_active).2))
      !! vtOrderID = Some Session.twap1.
Proof.
  assert (Hcs : Forall (λ c, sends_order c = false) [CStopAlgo "Twap_1"; CStopAll]).
  { repeat (apply Forall_cons; split; [reflexivity|]). apply Forall_nil_2. }
  destruct (owner_outlives_stop Session.mainEngine Session.vtConstant
              Session.ALGO_DICT Session.twap1 "rb1905" "多" 3500 10 None None
              (mkContract "rb1905" "SHFE" "CTP") _ Session.two_active
              eq_refl Hcs) as (id & Hid & Hown & _).
  exists id. exact (conj Hid Hown).
Defined.

Lemma subscriber_keeps_ticks_witness :
  ∃ deliveries,
    processTickEvent Session.tick
      (run Session.mainEngine Session.vtConstant Session.ALGO_DICT [CStopAll]
         (subscribed_new Session.twap1 "rb1905"
            (mkContract "rb1905" "SHFE" "CTP") Session.two_active))
    = (Returned (),
       with_trace (λ t, t ++ deliveries)
         (run Session.mainEngine Session.vtConstant Session.ALGO_DICT [CStopAll]
            (subscribed_new Session.twap1 "rb1905"
               (mkContract "rb1905" "SHFE" "CTP") Session.two_active)))
    ∧ AlgoUpdateTick Session.twap1 Session.tick ∈ deliveries.
Proof.
  assert (Hin : Session.twap1 ∈ ({[Session.twap1]} : gset Algo))
    by (apply elem_of_singleton; reflexivity).
  exact (subscriber_keeps_ticks Session.mainEngine Session.vtConstant
           Session.ALGO_DICT Session.twap1 {[Session.twap1]} Session.tick
           [CStopAll]
           (subscribed_new Session.twap1 "rb1905"
              (mkContract "rb1905" "SHFE" "CTP") Session.two_active)
           eq_refl Hin).
Defined.

(** ** Registry: timer, failures and name clashes *)




Section AddAlgoMore.
Variable ALGO_DICT : gmap value AlgoClass.



End AddAlgoMore.



(** ** Lookups at the main engine *)
Section Lookups.
Variable mainEngine : MainEngine.
Variable vtConstant : VtConstant.

(** X16. A lookup that finds nothing is not an error for [subscribe],
    [cancelOrder], [getTick] and [getContract]: each puts one log event
    that names the instance and the key, makes no other call, leaves the
    engine as it is and returns ([None] for the two queries). *)
Theorem failed_lookups_only_log (algo : Algo) (vtSymbol vtOrderID : string)
    (w : World) :
  me_getContract mainEngine vtSymbol = None →
  me_getTick mainEngine vtSymbol = None →
  me_getOrder mainEngine vtOrderID = None →
  let logged template key :=
    with_trace (λ t, t ++ [log_event (LogFmt template
                                        [VStr (algoName algo); VStr key])]) w in
  subscribe mainEngine algo vtSymbol w
  = (Returned (), logged "%s订阅行情失败，找不到合约%s" vtSymbol)
  ∧ cancelOrder mainEngine algo vtOrderID w
    = (Returned (), logged "%s委托撤单失败，找不到委托：%s" vtOrderID)
  ∧ getTick mainEngine algo vtSymbol w
    = (Returned None, logged "%s查询行情失败，找不到报价：%s" vtSymbol)
  ∧ getContract mainEngine algo vtSymbol w
    = (Returned None, logged "%s查询合约失败，找不到报价：%s" vtSymbol).
Proof.
  intros Hc Ht Ho logged. subst logged.
  unfold subscribe, cancelOrder, getTick, getContract, writeLog.
  rewrite Hc, Ht, Ho. by split_and!.
Qed.

(** X17. [cancelOrder] does not look at who owns the order: for an order
    that the main engine knows, whichever instance asks and whatever
    [orderAlgoDict] holds, it makes the one [cancelOrder] call with the
    order's symbol, exchange, order, front and session ids, through the
    order's gateway, and changes nothing in the engine. *)
Theorem cancelOrder_forwards (algo : Algo) (vtOrderID : string)
    (order : VtOrderData) (w : World) :
  me_getOrder mainEngine vtOrderID = Some order →
  cancelOrder mainEngine algo vtOrderID w
  = (Returned (),
     with_trace
       (λ t, t ++ [MainCancelOrder
                     (mkCancelReq (o_symbol order) (o_exchange order)
                        (o_orderID order) (o_frontID order) (o_sessionID order))
                     (o_gatewayName order)]) w)
  ∧ ∀ other, cancelOrder mainEngine other vtOrderID w
             = cancelOrder mainEngine algo vtOrderID w.
Proof.
  intros Ho. unfold cancelOrder. by rewrite Ho.
Qed.

(** X18. [buy] and [sell] are [sendOrder] with the direction fixed.  For a
    known contract, a price type or offset that is [None] or the empty
    string is replaced by the limit price type and by the opening offset;
    the order goes out once, and the id that comes back is owned by the
    sender. *)
Theorem buy_sell_defaults (algo : Algo) (vtSymbol : string) (price volume : Z)
    (priceType offset : option string) (contract : VtContractData) (w : World) :
  me_getContract mainEngine vtSymbol = Some contract →
  priceType ∈ [None; Some ""] →
  offset ∈ [None; Some ""] →
  let req direction :=
    mkOrderReq vtSymbol (c_symbol contract) (c_exchange contract) direction
      (OFFSET_OPEN vtConstant) price volume (PRICETYPE_LIMITPRICE vtConstant) in
  let gw := c_gatewayName contract in
  let long := req (DIRECTION_LONG vtConstant) in
  let short := req (DIRECTION_SHORT vtConstant) in
  buy mainEngine vtConstant algo vtSymbol price volume priceType offset w
  = (Returned (me_sendOrder mainEngine long gw (trace w)),
     order_sent mainEngine algo long gw w)
  ∧ sell mainEngine vtConstant algo vtSymbol price volume priceType offset w
    = (Returned (me_sendOrder mainEngine short gw (trace w)),
       order_sent mainEngine algo short gw w)
  ∧ orderAlgoDict (engine (order_sent mainEngine algo long gw w))
    !! me_sendOrder mainEngine long gw (trace w) = Some algo.
Proof.
  intros Hc Hpt Hoff req gw long short. unfold buy, sell.
  rewrite !(sendOrder_known mainEngine vtConstant algo vtSymbol _ price
              volume priceType offset contract w Hc).
  assert (Hp : truthy priceType = false).
  { apply elem_of_cons in Hpt as [->|Hpt]; [done|].
    by apply list_elem_of_singleton in Hpt as ->. }
  assert (Hf : truthy offset = false).
  { apply elem_of_cons in Hoff as [->|Hoff]; [done|].
    by apply list_elem_of_singleton in Hoff as ->. }
  unfold order_req. rewrite Hp, Hf. split_and!; try done.
  destruct w as [e f fw t]. simpl. apply lookup_insert_eq.
Qed.

End Lookups.

Lemma failed_lookups_only_log_witness :
  getTick Session.mainEngine Session.twap1 "IF1906" Session.fresh
  = (Returned None,
     with_trace
       (λ t, t ++ [log_event (LogFmt "%s查询行情失败，找不到报价：%s"
                                [VStr "Twap_1"; VStr "IF1906"])])
       Session.fresh).
Proof.
  exact (proj1 (proj2 (proj2
           (failed_lookups_only_log Session.mainEngine Session.twap1 "IF1906"
              "CTP.9" Session.fresh eq_refl eq_refl eq_refl)))).
Defined.

Lemma cancelOrder_forwards_witness :
  cancelOrder Desk.mainEngine Session.twap2 "CTP.1" Session.fresh
  = (Returned (),
     with_trace
       (λ t, t ++ [MainCancelOrder (mkCancelReq "rb1905" "SHFE" "1" 0 0) "CTP"])
       Session.fresh).
Proof.
  exact (proj1 (cancelOrder_forwards Desk.mainEngine Session.twap2 "CTP.1"
                  Session.order1 Session.fresh eq_refl)).
Defined.

Lemma buy_sell_defaults_witness :
  (buy Session.mainEngine Session.vtConstant Session.twap1 "rb1905" 3500 10
     (Some "") None Session.fresh).1 = Returned "CTP.1".
Proof.
  assert (H1 : Some "" ∈ [None; Some ""])
    by (apply list_elem_of_further, list_elem_of_here).
  assert (H2 : (None : option string) ∈ [None; Some ""])
    by apply list_elem_of_here.
  pose proof (buy_sell_defaults Session.mainEngine Session.vtConstant
                Session.twap1 "rb1905" 3500 10 (Some "") None
                (mkContract "rb1905" "SHFE" "CTP") Session.fresh eq_refl H1 H2)
    as H.
  exact (f_equal fst (proj1 H)).
Defined.

(** ** Loggers: one per algorithm, made at its first error *)

Lemma logger_creates_snoc (t : list Effect) (e : Effect) :
  logger_creates (t ++ [e])
  = logger_creates t ++ match e with LoggerCreate n => [n] | _ => [] end.
Proof. unfold logger_creates. rewrite omap_app. by destruct e. Qed.

#[local] Instance same_loggers_preorder : PreOrder same_loggers.
Proof.
  split.
  - by intros w.
  - intros a b c [H1 H2] [H3 H4]. split; congruence.
Qed.







Section Loggers.
Variable mainEngine : MainEngine.
Variable vtConstant : VtConstant.
Variable ALGO_DICT : gmap value AlgoClass.




End Loggers.

(** ** The RPC channel mirrors the variable and parameter updates *)

#[local] Instance same_mirror_preorder : PreOrder same_mirror.
Proof.
  split.
  - by intros w.
  - intros a b c (H1 & H2 & H3 & H4) (H5 & H6 & H7 & H8).
    unfold same_mirror. split_and!; congruence.
Qed.

Lemma same_mirror_emit (e : Effect) :
  published [e] = [] → published_topics [e] = [] → state_events [e] = [] →
  keeps same_mirror (emit e).
Proof.
  intros Hp Ht Hs [en f fw t]. unfold same_mirror. simpl.
  unfold published, published_topics, state_events in *.
  rewrite !omap_app, Hp, Ht, Hs, !app_nil_r. done.
Qed.

Lemma same_mirror_write_setting_file (l : list Setting) :
  keeps same_mirror (write_setting_file l).
Proof. by intros [e f fw t]. Qed.

Lemma same_mirror_update_self (f : AlgoEngine → AlgoEngine) :
  (∀ e, rpcServer (f e) = rpcServer e) → keeps same_mirror (update_self f).
Proof. intros Hf [en fl fw t]. split; [apply Hf | done]. Qed.

Ltac same_mirror_prim :=
  unfold_stores;
  lazymatch goal with
  | |- keeps _ (emit _) => apply same_mirror_emit; reflexivity
  | |- keeps _ (write_setting_file _) => apply same_mirror_write_setting_file
  | |- keeps _ (update_self _) =>
      apply same_mirror_update_self; intros ?; reflexivity
  end.

(** What an update adds to the local events and to the published ones. *)
Lemma putVarEvent_mirror (algo : Algo) (d : Setting) (w : World) :
  let ev := state_event EVENT_ALGO_VAR algo d in
  let w' := (putVarEvent algo d w).2 in
  rpcServer (engine w') = rpcServer (engine w)
  ∧ state_events (trace w') = state_events (trace w) ++ [ev]
  ∧ published (trace w')
    = published (trace w)
      ++ match rpcServer (engine w) with Some _ => [ev] | None => [] end
  ∧ published_topics (trace w')
    = published_topics (trace w)
      ++ match rpcServer (engine w) with Some _ => ["AlgoTrading"] | None => [] end.
Proof.
  unfold putVarEvent, state_event. unfold_m. destruct w as [e f fw t]. simpl.
  unfold published, published_topics, state_events.
  destruct (rpcServer e) as [srv|] eqn:Hsrv, (use_mongodb e); simpl;
    rewrite ?omap_app; simpl; rewrite ?app_nil_r, ?Hsrv; split_and!;
    reflexivity.
Qed.

Lemma putParamEvent_mirror (algo : Algo) (d : Setting) (w : World) :
  let ev := state_event EVENT_ALGO_PARAM algo d in
  let w' := (putParamEvent algo d w).2 in
  rpcServer (engine w') = rpcServer (engine w)
  ∧ state_events (trace w') = state_events (trace w) ++ [ev]
  ∧ published (trace w')
    = published (trace w)
      ++ match rpcServer (engine w) with Some _ => [ev] | None => [] end
  ∧ published_topics (trace w')
    = published_topics (trace w)
      ++ match rpcServer (engine w) with Some _ => ["AlgoTrading"] | None => [] end.
Proof.
  unfold putParamEvent, state_event. unfold_m. destruct w as [e f fw t]. simpl.
  unfold published, published_topics, state_events.
  destruct (rpcServer e) as [srv|] eqn:Hsrv, (use_mongodb e); simpl;
    rewrite ?omap_app; simpl; rewrite ?app_nil_r, ?Hsrv; split_and!;
    reflexivity.
Qed.

(** An update keeps the published events the tail of the local ones. *)
Lemma mirror_inv_step (w w' : World) (ev : Event) :
  mirror_inv w →
  rpcServer (engine w') = rpcServer (engine w) →
  state_events (trace w') = state_events (trace w) ++ [ev] →
  published (trace w')
  = published (trace w)
    ++ match rpcServer (engine w) with Some _ => [ev] | None => [] end →
  published_topics (trace w')
  = published_topics (trace w)
    ++ match rpcServer (engine w) with Some _ => ["AlgoTrading"] | None => [] end →
  mirror_inv w'.
Proof.
  intros (Hsuf & Hnone & Htop) Hr Hs Hp Ht. unfold mirror_inv.
  rewrite Hr, Hs, Hp, Ht. destruct (rpcServer (engine w)) as [srv|].
  - split_and!; [by apply suffix_app | done |].
    apply Forall_app. split; [done|]. by apply Forall_singleton.
  - rewrite !app_nil_r, (Hnone eq_refl).
    split_and!; [apply suffix_nil | done | done].
Qed.

Section Mirror.
Variable mainEngine : MainEngine.
Variable vtConstant : VtConstant.
Variable ALGO_DICT : gmap value AlgoClass.

Lemma same_mirror_call (c : Call) (w : World) :
  (∀ algo d, c ≠ CPutVarEvent algo d) →
  (∀ algo d, c ≠ CPutParamEvent algo d) →
  (∀ repPort pubPort, c ≠ CStartRpc repPort pubPort) →
  same_mirror w (call mainEngine vtConstant ALGO_DICT c w).
Proof.
  intros Hv Hp Hr.
  destruct c as [| | | | | | | | | | | |a d|a d| | | | | | | |r p|];
    try (by destruct (Hv a d)); try (by destruct (Hp a d));
    try (by destruct (Hr r p)); cbn [call];
    lazymatch goal with
    | |- same_mirror w (?m w).2 => revert w; change (keeps same_mirror m)
    end;
    unfold_methods; repeat keeps_step same_mirror_prim.
Qed.

Lemma call_mirror_inv (c : Call) (w : World) :
  mirror_inv w → mirror_inv (call mainEngine vtConstant ALGO_DICT c w).
Proof.
  intros Hinv.
  assert (Hsame : (∀ algo d, c ≠ CPutVarEvent algo d) →
                  (∀ algo d, c ≠ CPutParamEvent algo d) →
                  (∀ r p, c ≠ CStartRpc r p) →
                  mirror_inv (call mainEngine vtConstant ALGO_DICT c w)).
  { intros Hv Hp Hr.
    destruct (same_mirror_call c w Hv Hp Hr) as (H1 & H2 & H3 & H4).
    unfold mirror_inv. by rewrite H1, H2, H3, H4. }
  destruct c as [| | | | | | | | | | | |a d|a d| | | | | | | |r p|];
    try (apply Hsame; discriminate); cbn [call].
  - destruct (putVarEvent_mirror a d w) as (H1 & H2 & H3 & H4).
    by eapply mirror_inv_step.
  - destruct (putParamEvent_mirror a d w) as (H1 & H2 & H3 & H4).
    by eapply mirror_inv_step.
  - destruct Hinv as (Hsuf & Hnone & Htop).
    destruct (rpcServer (engine w)) as [srv|] eqn:Hsrv.
    + rewrite (startRpc_again r p srv w Hsrv). cbn [snd].
      unfold mirror_inv. rewrite Hsrv. by split_and!.
    + rewrite (startRpc_first r p w Hsrv). cbn [snd].
      destruct w as [e f fw t]. unfold mirror_inv, rpc_started. simpl in *.
      unfold published, published_topics, state_events in *.
      rewrite !omap_app. simpl. rewrite !app_nil_r. by split_and!.
Qed.

(** X20. In every state that the engine reaches from [__init__], the
    events published on the RPC channel are the last of the variable and
    parameter updates put on the event engine, the same events in the
    same order; nothing is published while there is no server, and every
    publication is under the topic "AlgoTrading".  An update adds its
    event to the local ones, and to the published ones once a server
    exists. *)
Theorem rpc_mirrors_updates (use_mongodb : bool)
    (file : option (list Setting)) (writable : bool) (cs : list Call)
    (algo : Algo) (d : Setting) :
  let w := run mainEngine vtConstant ALGO_DICT cs
             (init_world use_mongodb file writable) in
  let mirrored ev :=
    match rpcServer (engine w) with Some _ => [ev] | None => [] end in
  published (trace w) `suffix_of` state_events (trace w)
  ∧ (rpcServer (engine w) = None → published (trace w) = [])
  ∧ Forall (λ topic, topic = "AlgoTrading") (published_topics (trace w))
  ∧ state_events (trace (putVarEvent algo d w).2)
    = state_events (trace w) ++ [state_event EVENT_ALGO_VAR algo d]
  ∧ published (trace (putVarEvent algo d w).2)
    = published (trace w) ++ mirrored (state_event EVENT_ALGO_VAR algo d)
  ∧ state_events (trace (putParamEvent algo d w).2)
    = state_events (trace w) ++ [state_event EVENT_ALGO_PARAM algo d]
  ∧ published (trace (putParamEvent algo d w).2)
    = published (trace w) ++ mirrored (state_event EVENT_ALGO_PARAM algo d).
Proof.
  intros w mirrored.
  assert (Hinv : mirror_inv w).
  { apply (run_inv mainEngine vtConstant ALGO_DICT mirror_inv).
    - apply call_mirror_inv.
    - split_and!; [apply suffix_nil | done | apply Forall_nil_2]. }
  destruct Hinv as (H1 & H2 & H3).
  destruct (putVarEvent_mirror algo d w) as (_ & Hv1 & Hv2 & _).
  destruct (putParamEvent_mirror algo d w) as (_ & Hp1 & Hp2 & _).
  by split_and!.
Qed.

End Mirror.

(** ** The history of variables and parameters *)

Lemma history_writes_snoc (t : list Effect) (e : Effect) :
  history_writes (t ++ [e]) = history_writes t ++ history_writes [e].
Proof. unfold history_writes. by rewrite omap_app. Qed.

(** What [putVarEvent] leaves in [historyDict] on the database backend. *)
Lemma putVarEvent_history (algo : Algo) (d : Setting) (w : World) :
  use_mongodb (engine w) = true →
  let old := default (mkHistory (algoName algo) None None)
                     (historyDict (engine w) !! algoName algo) in
  let doc := mkHistory (algoName algo) (Some (stamped algo d)) (h_param old) in
  let w' := (putVarEvent algo d w).2 in
  use_mongodb (engine w') = true
  ∧ historyDict (engine w') = <[algoName algo := doc]> (historyDict (engine w))
  ∧ history_writes (trace w') = history_writes (trace w) ++ [doc].
Proof.
  intros Hm. unfold putVarEvent, stamped. unfold_m.
  destruct w as [e f fw t]. simpl in *. rewrite Hm. simpl.
  unfold history_writes.
  destruct (rpcServer e); simpl; rewrite ?omap_app; simpl;
    rewrite ?app_nil_r, ?Hm; split_and!; reflexivity.
Qed.

Lemma putParamEvent_history (algo : Algo) (d : Setting) (w : World) :
  use_mongodb (engine w) = true →
  let old := default (mkHistory (algoName algo) None None)
                     (historyDict (engine w) !! algoName algo) in
  let doc := mkHistory (algoName algo) (h_var old) (Some (stamped algo d)) in
  let w' := (putParamEvent algo d w).2 in
  use_mongodb (engine w') = true
  ∧ historyDict (engine w') = <[algoName algo := doc]> (historyDict (engine w))
  ∧ history_writes (trace w') = history_writes (trace w) ++ [doc].
Proof.
  intros Hm. unfold putParamEvent, stamped. unfold_m.
  destruct w as [e f fw t]. simpl in *. rewrite Hm. simpl.
  unfold history_writes.
  destruct (rpcServer e); simpl; rewrite ?omap_app; simpl;
    rewrite ?app_nil_r, ?Hm; split_and!; reflexivity.
Qed.

(** X21. On the database backend the history of an algorithm is one
    document that is overwritten, not a log: after a variable update, a
    parameter update and a second variable update, [historyDict] holds for
    the algorithm the second variables and the parameters, the first
    variables are gone, and each update has written the document as it
    then stood to the database. *)
Theorem history_keeps_latest (algo : Algo) (d1 d2 d3 : Setting) (w : World) :
  use_mongodb (engine w) = true →
  historyDict (engine w) !! algoName algo = None →
  let w1 := (putVarEvent algo d1 w).2 in
  let w2 := (putParamEvent algo d2 w1).2 in
  let w3 := (putVarEvent algo d3 w2).2 in
  let name := algoName algo in
  historyDict (engine w3) !! name
  = Some (mkHistory name (Some (stamped algo d3)) (Some (stamped algo d2)))
  ∧ history_writes (trace w3)
    = history_writes (trace w)
      ++ [mkHistory name (Some (stamped algo d1)) None;
          mkHistory name (Some (stamped algo d1)) (Some (stamped algo d2));
          mkHistory name (Some (stamped algo d3)) (Some (stamped algo d2))].
Proof.
  intros Hm Hnew w1 w2 w3 name.
  destruct (putVarEvent_history algo d1 w Hm) as (Hm1 & Hd1 & Ht1).
  destruct (putParamEvent_history algo d2 w1 Hm1) as (Hm2 & Hd2 & Ht2).
  destruct (putVarEvent_history algo d3 w2 Hm2) as (_ & Hd3 & Ht3).
  fold w1 in Hd1, Ht1. fold w2 in Hd2, Ht2. fold w3 in Hd3, Ht3.
  rewrite Hd1, lookup_insert_eq in Hd2, Ht2. rewrite Hnew in Hd1, Ht1.
  rewrite Hd2, lookup_insert_eq in Hd3, Ht3. simpl in *.
  split.
  - by rewrite Hd3, lookup_insert_eq.
  - rewrite Ht3, Ht2, Ht1. by rewrite <- !app_assoc.
Qed.

Lemma history_keeps_latest_witness :
  historyDict
    (engine (putVarEvent Session.twap1 Vault.vars2
               (putParamEvent Session.twap1 Vault.params
                  (putVarEvent Session.twap1 Vault.vars1 Vault.serving).2).2).2)
  !! "Twap_1"
  = Some (mkHistory "Twap_1" (Some (stamped Session.twap1 Vault.vars2))
            (Some (stamped Session.twap1 Vault.params))).
Proof.
  exact (proj1 (history_keeps_latest Session.twap1 Vault.vars1 Vault.params
                  Vault.vars2 Vault.serving eq_refl eq_refl)).
Defined.

#[local] Instance same_history_preorder : PreOrder same_history.
Proof.
  split.
  - by intros w.
  - intros a b c (H1 & H2 & H3) (H4 & H5 & H6).
    unfold same_history. split_and!; congruence.
Qed.

Lemma same_history_emit (e : Effect) :
  history_writes [e] = [] → keeps same_history (emit e).
Proof.
  intros He [en f fw t]. unfold same_history. simpl.
  by rewrite history_writes_snoc, He, app_nil_r.
Qed.

Lemma same_history_write_setting_file (l : list Setting) :
  keeps same_history (write_setting_file l).
Proof. by intros [e f fw t]. Qed.

Lemma same_history_update_self (f : AlgoEngine → AlgoEngine) :
  (∀ e, use_mongodb (f e) = use_mongodb e) →
  (∀ e, historyDict (f e) = historyDict e) →
  keeps same_history (update_self f).
Proof. intros Hm Hh [en fl fw t]. split_and!; [apply Hm | apply Hh | done]. Qed.

Ltac same_history_prim :=
  unfold_stores;
  lazymatch goal with
  | |- keeps _ (emit _) => apply same_history_emit; reflexivity
  | |- keeps _ (write_setting_file _) => apply same_history_write_setting_file
  | |- keeps _ (update_self _) =>
      apply same_history_update_self; intros ?; reflexivity
  end.

Lemma put_events_file_backend (algo : Algo) (d : Setting) (w : World) :
  use_mongodb (engine w) = false →
  same_history w (putVarEvent algo d w).2
  ∧ same_history w (putParamEvent algo d w).2.
Proof.
  intros Hm. unfold putVarEvent, putParamEvent, same_history. unfold_m.
  destruct w as [e f fw t]. simpl in *. rewrite Hm. simpl.
  unfold history_writes.
  destruct (rpcServer e); simpl; rewrite ?omap_app; simpl;
    rewrite ?app_nil_r, ?Hm; split_and!; reflexivity.
Qed.

Section History.
Variable mainEngine : MainEngine.
Variable vtConstant : VtConstant.
Variable ALGO_DICT : gmap value AlgoClass.

Lemma same_history_call (c : Call) (w : World) :
  use_mongodb (engine w) = false →
  same_history w (call mainEngine vtConstant ALGO_DICT c w).
Proof.
  intros Hm.
  destruct c as [| | | | | | | | | | | |a d|a d| | | | | | | | |]; cbn [call];
    try (by apply put_events_file_backend); clear Hm;
    lazymatch goal with
    | |- same_history w (?m w).2 => revert w; change (keeps same_history m)
    end;
    unfold_methods; repeat keeps_step same_history_prim.
Qed.

(** X22. On the file backend no method keeps or persists history: after
    any sequence of calls the backend flag is still off, [historyDict] is
    as it was and no history document has been written to the database. *)
Theorem file_backend_keeps_no_history (cs : list Call) (w : World) :
  use_mongodb (engine w) = false →
  let w' := run mainEngine vtConstant ALGO_DICT cs w in
  use_mongodb (engine w') = false
  ∧ historyDict (engine w') = historyDict (engine w)
  ∧ history_writes (trace w') = history_writes (trace w).
Proof.
  intros Hm w'.
  assert (Hinv : use_mongodb (engine w') = false ∧ same_history w w').
  { apply (run_inv mainEngine vtConstant ALGO_DICT
             (λ w1, use_mongodb (engine w1) = false ∧ same_history w w1)).
    - intros c w1 [Hm1 Hs1].
      pose proof (same_history_call c w1 Hm1) as Hstep. split.
      + destruct Hstep as (-> & _). exact Hm1.
      + etrans; [exact Hs1 | exact Hstep].
    - split; [done | reflexivity]. }
  destruct Hinv as (Hm' & _ & Hh & Ht). by split_and!.
Qed.

End History.

Lemma file_backend_keeps_no_history_witness :
  historyDict
    (engine (run Session.mainEngine Session.vtConstant Session.ALGO_DICT
               [CPutVarEvent Session.twap1 Vault.vars1;
                CPutParamEvent Session.twap1 Vault.params]
               Session.fresh))
  = ∅.
Proof.
  exact (proj1 (proj2 (file_backend_keeps_no_history Session.mainEngine
                         Session.vtConstant Session.ALGO_DICT
                         [CPutVarEvent Session.twap1 Vault.vars1;
                          CPutParamEvent Session.twap1 Vault.params]
                         Session.fresh eq_refl))).
Defined.

(** ** The control server, once made, stays *)
Section ServerStays.
Variable mainEngine : MainEngine.
Variable vtConstant : VtConstant.
Variable ALGO_DICT : gmap value AlgoClass.

Lemma stop_forwards (srv : AlgoRpcServer) (w : World) :
  rpcServer (engine w) = Some srv →
  stop w = (Returned (), with_trace (λ t, t ++ [RpcStop]) w).
Proof. intros Hr. unfold stop. unfold_m. by rewrite Hr. Qed.

(** X23. [stop] stops the control server but does not forget it: once
    [self.rpcServer] is set, after any sequence of calls, [stop] among
    them, it is still the same server object, no further server has been
    started, [startRpc] with any ports returns without a change, and
    [stop] forwards to the server again. *)
Theorem rpc_server_never_replaced (srv : AlgoRpcServer) (cs : list Call)
    (w : World) :
  rpcServer (engine w) = Some srv →
  let w' := run mainEngine vtConstant ALGO_DICT cs w in
  rpcServer (engine w') = Some srv
  ∧ rpc_starts (trace w') = rpc_starts (trace w)
  ∧ (∀ repPort pubPort, startRpc repPort pubPort w' = (Returned (), w'))
  ∧ stop w' = (Returned (), with_trace (λ t, t ++ [RpcStop]) w').
Proof.
  intros Hr w'.
  assert (Hinv : rpcServer (engine w') = Some srv
                 ∧ rpc_starts (trace w') = rpc_starts (trace w)).
  { apply (run_inv mainEngine vtConstant ALGO_DICT
             (λ w1, rpcServer (engine w1) = Some srv
                    ∧ rpc_starts (trace w1) = rpc_starts (trace w))).
    - intros c w1 [Hr1 Ht1].
      assert (Hquiet : (∀ r p, c ≠ CStartRpc r p) →
                rpcServer (engine (call mainEngine vtConstant ALGO_DICT c w1))
                = Some srv
                ∧ rpc_starts (trace (call mainEngine vtConstant ALGO_DICT c w1))
                  = rpc_starts (trace w)).
      { intros Hne.
        destruct (same_rpc_call mainEngine vtConstant ALGO_DICT c w1 Hne)
          as [Hr2 Ht2].
        split; congruence. }
      destruct c as [| | | | | | | | | | | | | | | | | | | | |r p|];
        try (apply Hquiet; discriminate).
      cbn [call]. by rewrite (startRpc_again r p srv w1 Hr1).
    - done. }
  destruct Hinv as [Hr' Ht']. split_and!; try done.
  - intros r p. by eapply startRpc_again.
  - by eapply stop_forwards.
Qed.

End ServerStays.

Lemma rpc_server_never_replaced_witness :
  rpcServer
    (engine (run Session.mainEngine Session.vtConstant Session.ALGO_DICT
               [CStop; CStartRpc (VInt 3014) (VInt 3016)] Vault.serving))
  = Some (mkRpcServer (VInt 2014) (VInt 2016)).
Proof.
  exact (proj1 (rpc_server_never_replaced Session.mainEngine Session.vtConstant
                  Session.ALGO_DICT (mkRpcServer (VInt 2014) (VInt 2016))
                  [CStop; CStartRpc (VInt 3014) (VInt 3016)] Vault.serving
                  eq_refl)).
Defined.

(** ** [stopAll] and the dispatcher, in general *)

(** X24. [stopAll] with no running algorithm returns and changes nothing.
    With at least one it calls [stop] on the instance added first, takes
    its name out, and raises [RuntimeError]: the others stay active and
    are not stopped. *)
Theorem stopAll_stops_first_only (w : World) :
  match algoDict (engine w) with
  | [] => stopAll w = (Returned (), w)
  | (name, algo) :: rest =>
      stopAll w
      = (Raised (RuntimeError "dictionary changed size during iteration"),
         stopped name algo w)
      ∧ algoDict (engine (stopped name algo w)) = rest
      ∧ trace (stopped name algo w) = trace w ++ [AlgoStop algo]
  end.
Proof.
  destruct (algoDict (engine w)) as [|[name algo] rest] eqn:Hd.
  - by apply stopAll_empty.
  - destruct (stopAll_nonempty name algo rest w Hd) as [Hrun Hrest].
    split_and!; [done | done | by destruct w].
Qed.


(** ** Compositions *)

Lemma deleteAlgoSetting_refused (s held : Setting) (k : value) (w : World) :
  use_mongodb (engine w) = false →
  fs_writable w = false →
  dict_get "settingName" s = Some k →
  dict_get k (settingDict (engine w)) = Some held →
  deleteAlgoSetting s w
  = (Returned (),
     with_trace
       (λ t, t ++ error_calls "保存算法配置异常:{},{}" (IOError "open")
               ++ [setting_event [("settingName", k)]])
       (with_engine (λ e, set_settingDict (dict_del k (settingDict e)) e) w)).
Proof.
  intros Hm Hw Hname Hheld.
  unfold deleteAlgoSetting, saveAlgoSettingToFile, writeError, putSettingEvent.
  unfold_m. rewrite Hname. destruct w as [e f fw t]. simpl in *.
  rewrite Hheld, Hm, Hw. simpl. unfold with_trace. simpl.
  by rewrite <- !app_assoc.
Qed.

(** X26. On the file backend, when the setting file cannot be written,
    [deleteAlgoSetting] still takes the setting out of the map and returns,
    but the file keeps it: a later [loadAlgoSettingFromFile] brings the
    name back, with the entry that the file has for it. *)
Theorem refused_delete_comes_back (s held back : Setting) (k : value)
    (l : list Setting) (w : World) :
  use_mongodb (engine w) = false →
  fs_writable w = false →
  settingFile w = Some l →
  Forall named l →
  dict_wf (settingDict (engine w)) →
  dict_get "settingName" s = Some k →
  dict_get k (settingDict (engine w)) = Some held →
  last (entries_named k l) = Some back →
  let w1 := (deleteAlgoSetting s w).2 in
  let w2 := (loadAlgoSettingFromFile w1).2 in
  (deleteAlgoSetting s w).1 = Returned ()
  ∧ dict_get k (settingDict (engine w1)) = None
  ∧ settingFile w1 = Some l
  ∧ dict_get k (settingDict (engine w2)) = Some back.
Proof.
  intros Hm Hw Hfile Hall Hwf Hname Hheld Hlast.
  rewrite (deleteAlgoSetting_refused s held k w Hm Hw Hname Hheld). cbn [fst snd].
  split; [done|].
  assert (Hgone : dict_get k (dict_del k (settingDict (engine w))) = None)
    by by apply dict_get_del_eq.
  split; [by destruct w|]. split; [by destruct w|].
  unfold loadAlgoSettingFromFile, writeLog, try_except, mbind, M_bind, get_world.
  replace (settingFile _) with (Some l) by by destruct w.
  rewrite load_all_named by done.
  destruct w as [e f fw t]. simpl in *.
  by rewrite (loaded_lookup l _ k Hall), Hlast.
Qed.

Lemma refused_delete_comes_back_witness :
  dict_get (VStr "T1")
    (settingDict (engine (deleteAlgoSetting Session.twapSetting
                            Locked.read_only).2))
  = None
  ∧ dict_get (VStr "T1")
      (settingDict
         (engine (loadAlgoSettingFromFile
                    (deleteAlgoSetting Session.twapSetting
                       Locked.read_only).2).2))
    = Some Session.twapSetting.
Proof.
  assert (Hall : Forall named [Session.twapSetting]).
  { apply Forall_cons. split; [by eexists | apply Forall_nil_2]. }
  assert (Hwf : dict_wf (settingDict (engine Locked.read_only))).
  { unfold dict_wf. apply (bool_decide_unpack _). vm_compute. exact I. }
  pose proof (refused_delete_comes_back Session.twapSetting Session.twapSetting
                Session.twapSetting (VStr "T1") [Session.twapSetting]
                Locked.read_only eq_refl eq_refl eq_refl Hall Hwf eq_refl
                eq_refl eq_refl) as H.
  exact (conj (proj1 (proj2 H)) (proj2 (proj2 (proj2 H)))).
Defined.

Section AddThenStop.
Variable ALGO_DICT : gmap value AlgoClass.


End AddThenStop.


Section SubscribeAgain.
Variable mainEngine : MainEngine.

(** X28. Subscribing an instance to a symbol a second time changes
    nothing: no upstream call, and the subscription set is the same, so a
    tick is still handed to the instance once. *)
Theorem subscribe_again_changes_nothing (algo : Algo) (vtSymbol : string)
    (contract : VtContractData) (w : World) :
  me_getContract mainEngine vtSymbol = Some contract →
  let w1 := (subscribe mainEngine algo vtSymbol w).2 in
  subscribe mainEngine algo vtSymbol w1 = (Returned (), w1).
Proof.
  intros Hc w1.
  assert (Hmember : ∃ s, symbolAlgoDict (engine w1) !! vtSymbol = Some s
                         ∧ algo ∈ s).
  { subst w1.
    destruct (symbolAlgoDict (engine w) !! vtSymbol) as [s|] eqn:Hs.
    - destruct (subscribe_known mainEngine algo vtSymbol contract s w Hc Hs)
        as [-> Hnew].
      exists (s ∪ {[algo]}). split; [done | set_solver].
    - rewrite (subscribe_new mainEngine algo vtSymbol contract w Hc Hs).
      exists {[algo]}. split; [|set_solver].
      destruct w as [e f fw t]. simpl. apply lookup_insert_eq. }
  destruct Hmember as (s & Hs & Hin).
  destruct (subscribe_known mainEngine algo vtSymbol contract s w1 Hc Hs)
    as [-> _].
  f_equal. unfold subscribed_known. apply with_engine_id.
  rewrite alter_id.
  - by destruct (engine w1).
  - intros s' Hs'. assert (s' = s) as -> by congruence. set_solver.
Qed.

End SubscribeAgain.

Lemma subscribe_again_changes_nothing_witness :
  subscribe Session.mainEngine Session.twap1 "rb1905"
    (subscribe Session.mainEngine Session.twap1 "rb1905" Session.fresh).2
  = (Returned (),
     (subscribe Session.mainEngine Session.twap1 "rb1905" Session.fresh).2).
Proof.
  exact (subscribe_again_changes_nothing Session.mainEngine Session.twap1
           "rb1905" (mkContract "rb1905" "SHFE" "CTP") Session.fresh eq_refl).
Defined.

(** X29. A tick for a symbol with a subscription set is handed to every
    instance of the set once, and to no other instance. *)
Theorem tick_fans_out_exactly (tick : VtTickData) (s : gset Algo) (w : World) :
  symbolAlgoDict (engine w) !! t_vtSymbol tick = Some s →
  ∃ receivers,
    processTickEvent tick w
    = (Returned (),
       with_trace (λ t, t ++ ((λ a, AlgoUpdateTick a tick) <$> receivers)) w)
    ∧ NoDup receivers
    ∧ ∀ algo, algo ∈ receivers ↔ algo ∈ s.
Proof.
  intros Hs. exists (elements s). split_and!.
  - by apply processTickEvent_known.
  - apply NoDup_elements.
  - intros algo. apply elem_of_elements.
Qed.

Lemma tick_fans_out_exactly_witness :
  ∃ receivers,
    processTickEvent Session.tick
      (subscribed_new Session.twap1 "rb1905"
         (mkContract "rb1905" "SHFE" "CTP") Session.fresh)
    = (Returned (),
       with_trace
         (λ t, t ++ ((λ a, AlgoUpdateTick a Session.tick) <$> receivers))
         (subscribed_new Session.twap1 "rb1905"
            (mkContract "rb1905" "SHFE" "CTP") Session.fresh))
    ∧ NoDup receivers
    ∧ ∀ algo, algo ∈ receivers ↔ algo ∈ ({[Session.twap1]} : gset Algo).
Proof.
  exact (tick_fans_out_exactly Session.tick {[Session.twap1]}
           (subscribed_new Session.twap1 "rb1905"
              (mkContract "rb1905" "SHFE" "CTP") Session.fresh) eq_refl).
Defined.
